(** * AI CheckMate: the document ingestion and analysis pipeline of [main.py]

    A shallow embedding of the handler [handle_document] and of the helpers it
    calls ([guess_document_type], [extract_text_from_pdf],
    [extract_text_from_docx], [extract_text_from_image],
    [analyze_document_text]), followed by the properties of the pipeline.

    Python values are modelled as follows.
    - A [str] is the list of its Unicode code points, so that [len], slicing
      and [strip] count characters the way Python does.
    - The calls that leave the program (the Telegram bot, pdfplumber, docx2txt,
      PIL and pytesseract, the OpenAI client) are answered by a [World]: a
      record of oracles, one per call.  A call either returns a value or
      raises an [Exception].
    - A computation returns the list of the effects it performed, in order,
      together with its result ([M]). *)

From Stdlib Require Import List NArith ZArith QArith Bool Lia String.
Import ListNotations.
Open Scope Z_scope.

(** ** Python strings *)

Module Py.

(** A character is a Unicode code point. *)
Definition char := N.
Definition str := list char.

(** String literals are written in UTF-8, the encoding of [main.py]; [u]
    decodes one into its code points. *)
Fixpoint utf8_decode (need : nat) (acc : N) (bs : list Byte.byte) : str :=
  match bs with
  | [] => []
  | b :: bs' =>
      let n := Byte.to_N b in
      match need with
      | O =>
          if (n <? 128)%N then n :: utf8_decode 0 0%N bs'
          else if (n <? 224)%N then utf8_decode 1 (N.land n 31) bs'
          else if (n <? 240)%N then utf8_decode 2 (N.land n 15) bs'
          else utf8_decode 3 (N.land n 7) bs'
      | S k =>
          let acc' := N.lor (N.shiftl acc 6) (N.land n 63) in
          match k with
          | O => acc' :: utf8_decode 0 0%N bs'
          | S _ => utf8_decode k acc' bs'
          end
      end
  end.

Definition u (s : string) : str := utf8_decode 0 0%N (list_byte_of_string s).

(** [a == b] *)
Fixpoint str_eqb (a b : str) : bool :=
  match a, b with
  | [], [] => true
  | x :: a', y :: b' => (x =? y)%N && str_eqb a' b'
  | _, _ => false
  end.

(** [x in {a, b, ...}] for a set display of string literals. *)
Definition str_in (x : str) (s : list str) : bool := existsb (str_eqb x) s.

(** [len(s)] *)
Definition len (s : str) : Z := Z.of_nat (List.length s).

(** [s.lower()], exact on strings of ASCII characters: [A]..[Z] go to
    [a]..[z].  Python also lowers the cased letters outside ASCII, which are
    left as they are here, so on other strings the result stands for the
    code's only in what the handler does with it: the handler compares it
    with ASCII words, and outside ASCII nothing lowers to one of their
    letters (U+212A lowers to [k], which none of the words has; U+0130
    lowers to [i] followed by U+0307); no character lowers to or from [.]. *)
Definition lower_char (c : char) : char :=
  if ((65 <=? c) && (c <=? 90))%N then (c + 32)%N else c.

Definition lower (s : str) : str := map lower_char s.

(** [s.split(sep)] for a one-character separator: the pieces between the
    occurrences of [sep]; never the empty list. *)
Fixpoint split (sep : char) (s : str) : list str :=
  match s with
  | [] => [[]]
  | c :: s' =>
      if (c =? sep)%N then [] :: split sep s'
      else match split sep s' with
           | [] => [[c]]
           | piece :: pieces => (c :: piece) :: pieces
           end
  end.

(** [Py_UNICODE_ISSPACE], the characters [str.strip()] removes. *)
Definition isspace (c : char) : bool :=
  (((9 <=? c) && (c <=? 13)) || ((28 <=? c) && (c <=? 32))
   || (c =? 133) || (c =? 160) || (c =? 5760)
   || ((8192 <=? c) && (c <=? 8202))
   || (c =? 8232) || (c =? 8233) || (c =? 8239) || (c =? 8287)
   || (c =? 12288))%N.

Fixpoint lstrip (s : str) : str :=
  match s with
  | [] => []
  | c :: s' => if isspace c then lstrip s' else s
  end.

Definition rstrip (s : str) : str := rev (lstrip (rev s)).

(** [s.strip()] *)
Definition strip (s : str) : str := rstrip (lstrip s).

(** [s[:stop]]; a negative [stop] counts from the end. *)
Definition slice_to (stop : Z) (s : str) : str :=
  if stop <? 0 then firstn (Z.to_nat (Z.max 0 (len s + stop))) s
  else firstn (Z.to_nat stop) s.

(** [sep.join(chunks)] *)
Fixpoint join (sep : str) (chunks : list str) : str :=
  match chunks with
  | [] => []
  | [c] => c
  | c :: rest => c ++ sep ++ join sep rest
  end.

(** [x or default] for an optional string: [None] and [""] are falsy. *)
Definition or_else (x : option str) (default : str) : str :=
  match x with
  | None => default
  | Some [] => default
  | Some s => s
  end.

End Py.
Import Py.

(** ** Effects

    [Ok a] is a call that returned [a]; [Raise] is a call that raised an
    [Exception] (the class both [except] clauses of the handler catch). *)

Inductive result (A : Type) : Type :=
  | Ok (a : A)
  | Raise.
Arguments Ok {A} a.
Arguments Raise {A}.

(** The expression [Path(tmpdir) / filename], kept as its two operands.
    What path pathlib makes of them is not modelled: a [filename] that is
    absolute replaces [tmpdir] altogether, so the destination need not lie
    inside the temporary directory. *)
Record Path := mkPath { path_parent : str; path_name : str }.

(** The keyword arguments of [chat.completions.create]. *)
Record ChatMessage := { role : str; content : str }.
Record Request := {
  model : str;
  messages : list ChatMessage;
  max_tokens : Z;
  temperature : Q }.

(** [response.choices[i].message.content] *)
Record ResponseMessage := { message_content : option str }.
Record Choice := { choice_message : ResponseMessage }.
Record Response := { choices : list Choice }.

(** A PIL image handle. *)
Definition Image := N.

(** A page of an open PDF is given by what its [extract_text()] does. *)
Definition Page := result (option str).

Inductive Event : Type :=
  | EReply (text : str) (disable_web_page_preview : bool)
  | EMkdtemp (dir : str)
  | ECleanup (dir : str)
  | EDownload (file_id : str) (destination : Path)
  | EPdfOpen (path : Path)
  | EPageExtractText
  | EDocxProcess (path : Path)
  | EImageOpen (path : Path)
  | EImageToString (img : Image) (lang : str)
  | ELogException (fmt : str)
  | EChatCreate (req : Request).

(** What the collaborators answer. *)
Record World := {
  tmpdir_name : str;
  bot_download : str -> Path -> result unit;
  pdfplumber_open : Path -> result (list Page);
  docx2txt_process : Path -> result str;
  Image_open : Path -> result Image;
  image_to_string : Image -> str -> result str;
  chat_completions_create : Request -> result Response }.

Definition M (A : Type) : Type := (list Event * result A)%type.

Definition ret {A} (a : A) : M A := ([], Ok a).

Definition bind {A B} (m : M A) (f : A -> M B) : M B :=
  match m with
  | (t, Ok a) => let (t', r) := f a in (t ++ t', r)
  | (t, Raise) => (t, Raise)
  end.

Declare Scope py_scope.
Delimit Scope py_scope with py.
Notation "x <- m ;; k" := (bind m (fun x => k))
  (at level 61, m at next level, right associativity) : py_scope.
Notation "' pat <- m ;; k" := (bind m (fun x => match x with pat => k end))
  (at level 61, pat pattern, m at next level, right associativity) : py_scope.
Notation "m ;; k" := (bind m (fun _ => k))
  (at level 61, right associativity) : py_scope.
Open Scope py_scope.

(** A call to a collaborator: the event, then the collaborator's answer. *)
Definition call {A} (e : Event) (r : result A) : M A := ([e], r).

Definition emit (e : Event) : M unit := ([e], Ok tt).

(** [try: body / except Exception: handler] *)
Definition try_except {A} (body handler : M A) : M A :=
  match body with
  | (t, Ok a) => (t, Ok a)
  | (t, Raise) => let (t', r) := handler in (t ++ t', r)
  end.

(** [with tempfile.TemporaryDirectory() as tmpdir: body]; the directory is
    removed on every exit of [body]. *)
Definition with_TemporaryDirectory {A} (w : World) (body : str -> M A) : M A :=
  let tmpdir := tmpdir_name w in
  let (t, r) := body tmpdir in
  (EMkdtemp tmpdir :: t ++ [ECleanup tmpdir], r).

(** [x.attr] where [x] may be [None]: [AttributeError]. *)
Definition not_None {A} (x : option A) : M A :=
  match x with
  | Some a => ret a
  | None => ([], Raise)
  end.

(** [l[0]]: [IndexError] on the empty list. *)
Definition item_first {A} (l : list A) : M A := not_None (hd_error l).

(** [l[-1]]: [IndexError] on the empty list. *)
Definition item_last {A} (l : list A) : M A := not_None (hd_error (rev l)).

(** ** The program *)

Definition newline : str := [10%N].
Definition dot : char := 46%N.

(** [_MODEL], [_MAX_TOKENS_RESPONSE] *)
Definition _MODEL : str := u "gpt-4o-mini".
Definition _MAX_TOKENS_RESPONSE : Z := 1200.

(** [extract_text_from_pdf]: the loop over [pdf.pages], appending to
    [text_chunks]. *)
Fixpoint extract_pages (pages : list Page) (text_chunks : list str)
  : M (list str) :=
  match pages with
  | [] => ret text_chunks
  | page :: rest =>
      t <- call EPageExtractText page ;;
      extract_pages rest (text_chunks ++ [or_else t (u "")])
  end.

Definition extract_text_from_pdf (w : World) (path : Path) : M str :=
  pdf <- call (EPdfOpen path) (pdfplumber_open w path) ;;
  text_chunks <- extract_pages pdf [] ;;
  ret (join newline text_chunks).

Definition extract_text_from_image (w : World) (path : Path) : M str :=
  img <- call (EImageOpen path) (Image_open w path) ;;
  call (EImageToString img (u "rus+eng")) (image_to_string w img (u "rus+eng")).

Definition extract_text_from_docx (w : World) (path : Path) : M str :=
  call (EDocxProcess path) (docx2txt_process w path).

Definition guess_document_type (filename : str) : str :=
  let ext := last (split dot (lower filename)) [] in
  ext.

Definition system_prompt : str :=
  u "Ты — виртуальный юрист‑ассистент. Проанализируй текст договора, найди потенциальные "
  ++ u "риски и двусмысленные формулировки. Для каждого риска сформируй: (1) короткое название, "
  ++ u "(2) цитату из договора, (3) почему опасно простыми словами, (4) совет, как исправить."
  ++ u "Заверши списком коротких пунктов‑чек‑листа, что проверить перед подписанием.".

(** The arguments [analyze_document_text] passes to
    [chat.completions.create]. *)
Definition chat_request (text : str) : Request :=
  {| model := _MODEL;
     messages :=
       [ {| role := u "system"; content := system_prompt |};
         {| role := u "user"; content := slice_to 60000 text |} ];
     max_tokens := _MAX_TOKENS_RESPONSE;
     temperature := 3 # 10 |}.

Definition analyze_document_text (w : World) (text : str) : M str :=
  let req := chat_request text in
  response <- call (EChatCreate req) (chat_completions_create w req) ;;
  choice <- item_first (choices response) ;;
  c <- not_None (message_content (choice_message choice)) ;;
  ret (strip c).

(** *** [handle_document] *)

Inductive ContentType := DOCUMENT | PHOTO.
Record Document := { file_id : str; file_name : option str }.
Record PhotoSize := { photo_file_id : str }.
Record Message := {
  content_type : ContentType;
  document : option Document;
  photo : list PhotoSize }.

(** The texts of the replies. *)
Definition reply_received : str := u "📥 Получил файл, анализирую… ⏳".
Definition reply_unsupported : str := u "❌ Не могу обработать этот тип файла.".
Definition reply_extract_failed : str :=
  u "⚠️ Не удалось извлечь текст из файла. Попробуйте другой формат.".
Definition reply_too_sparse : str :=
  u "⚠️ Документ почти пустой или текст не распознан.".
Definition reply_analysis_failed : str :=
  u "⚠️ Не удалось проанализировать документ. Попробуйте позже.".

(** [message.reply(text)] *)
Definition reply (text : str) : M unit := emit (EReply text false).

(** Lines 104-109: the file to fetch and the name to store it under. *)
Definition select_file (message : Message) : M (str * str) :=
  match content_type message with
  | DOCUMENT =>
      d <- not_None (document message) ;;
      ret (file_id d, or_else (file_name d) (u "document"))
  | PHOTO =>
      p <- item_last (photo message) ;;
      ret (photo_file_id p, u "photo_" ++ photo_file_id p ++ u ".jpg")
  end.

(** Lines 115-129, step 2.  [None] stands for the handler having replied
    and returned. *)
Definition extract_text (w : World) (filename : str) (file_path : Path)
  : M (option str) :=
  let doc_type := guess_document_type filename in
  try_except
    (if str_eqb doc_type (u "pdf") then
       text <- extract_text_from_pdf w file_path ;; ret (Some text)
     else if str_in doc_type [u "doc"; u "docx"] then
       text <- extract_text_from_docx w file_path ;; ret (Some text)
     else if str_in doc_type [u "jpg"; u "jpeg"; u "png"; u "heic"; u "webp"] then
       text <- extract_text_from_image w file_path ;; ret (Some text)
     else
       reply reply_unsupported ;; ret None)
    (emit (ELogException (u "Extract error: %s")) ;;
     reply reply_extract_failed ;;
     ret None).

(** Lines 131-144: the length check, step 3 and step 4. *)
Definition analyze_and_send (w : World) (text : str) : M unit :=
  if len (strip text) <? 200 then
    reply reply_too_sparse
  else
    analysed <- try_except
      (analysis_result <- analyze_document_text w text ;;
       ret (Some analysis_result))
      (emit (ELogException (u "LLM error: %s")) ;;
       reply reply_analysis_failed ;;
       ret None) ;;
    match analysed with
    | None => ret tt
    | Some analysis_result => emit (EReply analysis_result true)
    end.

Definition handle_document (w : World) (message : Message) : M unit :=
  reply reply_received ;;
  with_TemporaryDirectory w (fun tmpdir =>
    '(file_id, filename) <- select_file message ;;
    let file_path := mkPath tmpdir filename in
    call (EDownload file_id file_path) (bot_download w file_id file_path) ;;
    extracted <- extract_text w filename file_path ;;
    match extracted with
    | None => ret tt
    | Some text => analyze_and_send w text
    end).

(** ** Observations on a run *)

(** The texts sent with [message.reply], in order. *)
Definition replies (t : list Event) : list str :=
  flat_map (fun e => match e with EReply text _ => [text] | _ => [] end) t.

(** The calls of [chat.completions.create], with their arguments, in order.
    The client may send the request of one call to the service several times;
    see [client_create] and [requests_sent]. *)
Definition chat_calls (t : list Event) : list Request :=
  flat_map (fun e => match e with EChatCreate req => [req] | _ => [] end) t.

(** The calls into the extraction libraries. *)
Definition is_extraction (e : Event) : bool :=
  match e with
  | EPdfOpen _ | EPageExtractText | EDocxProcess _
  | EImageOpen _ | EImageToString _ _ => true
  | _ => false
  end.

Definition extractions (t : list Event) : list Event := filter is_extraction t.

(** The text handed from step 2 to the length check, when the run gets
    that far. *)
Definition extracted_text (w : World) (message : Message) : option str :=
  match snd (select_file message) with
  | Ok (file_id, filename) =>
      let file_path := mkPath (tmpdir_name w) filename in
      match bot_download w file_id file_path with
      | Ok _ =>
          match snd (extract_text w filename file_path) with
          | Ok (Some text) => Some text
          | _ => None
          end
      | Raise => None
      end
  | Raise => None
  end.

(** A trace in which nothing is said to the user and the remote service is
    not called. *)
Definition quiet (t : list Event) : Prop := replies t = [] /\ chat_calls t = [].

(** What the first [except] clause does. *)
Definition on_extract_error : list Event :=
  [ELogException (u "Extract error: %s"); EReply reply_extract_failed false].

(** What the second [except] clause does. *)
Definition on_analysis_error : list Event :=
  [ELogException (u "LLM error: %s"); EReply reply_analysis_failed false].

(** The branch of the [if]/[elif] chain of step 2 that a [doc_type]
    selects. *)
Inductive DocumentKind := pdf | docx | image | unsupported.

Definition branch_of (doc_type : str) : DocumentKind :=
  if str_eqb doc_type (u "pdf") then pdf
  else if str_in doc_type [u "doc"; u "docx"] then docx
  else if str_in doc_type [u "jpg"; u "jpeg"; u "png"; u "heic"; u "webp"]
  then image
  else unsupported.

(** The classification of a file name by the code. *)
Definition classify (filename : str) : DocumentKind :=
  branch_of (guess_document_type filename).

(** *** The classifier as the specification words it

    The extension is the text after the last [.]; a name without [.] has
    none and is unsupported. *)
Fixpoint extension (filename : str) : option str :=
  match filename with
  | [] => None
  | c :: rest =>
      match extension rest with
      | Some e => Some e
      | None => if (c =? dot)%N then Some rest else None
      end
  end.

Definition spec_classify (filename : str) : DocumentKind :=
  match extension filename with
  | None => unsupported
  | Some e => branch_of (lower e)
  end.

(** The four failure messages. *)
Definition failure_messages : list str :=
  [reply_unsupported; reply_extract_failed; reply_too_sparse;
   reply_analysis_failed].

(** The content of the message of a request whose role is [user]. *)
Definition user_message (req : Request) : option str :=
  option_map content
    (find (fun m => str_eqb (role m) (u "user")) (messages req)).

Definition system_message (req : Request) : option str :=
  option_map content
    (find (fun m => str_eqb (role m) (u "system")) (messages req)).

(** The file was fetched: the event names a file and [bot.download]
    returned. *)
Definition retrieved (w : World) (message : Message) : bool :=
  match snd (select_file message) with
  | Ok (file_id, filename) =>
      match bot_download w file_id (mkPath (tmpdir_name w) filename) with
      | Ok _ => true
      | Raise => false
      end
  | Raise => false
  end.

(** A response the client cannot read: no choice, or a first choice without
    content. *)
Definition malformed (response : Response) : Prop :=
  match choices response with
  | [] => True
  | choice :: _ => message_content (choice_message choice) = None
  end.

(** The remote call raised or returned a malformed response. *)
Definition analysis_fails (r : result Response) : Prop :=
  match r with
  | Raise => True
  | Ok response => malformed response
  end.

(** What a page contributes to the text of a PDF. *)
Definition page_text (t : option str) : str :=
  match t with
  | Some s => s
  | None => []
  end.

(** ** Sample runs *)

Definition sample_world (download : result unit) (pages : result (list Page))
  (body ocr : result str) (answer : result Response) : World :=
  {| tmpdir_name := u "/tmp/tmpk3v9x1";
     bot_download := fun _ _ => download;
     pdfplumber_open := fun _ => pages;
     docx2txt_process := fun _ => body;
     Image_open := fun _ => Ok 1%N;
     image_to_string := fun _ _ => ocr;
     chat_completions_create := fun _ => answer |}.

Definition document_message (name : option str) : Message :=
  {| content_type := DOCUMENT;
     document := Some {| file_id := u "BQACAgIAAxkBAAIBc2"; file_name := name |};
     photo := [] |}.

Definition answer (c : option str) : Response :=
  {| choices := [ {| choice_message := {| message_content := c |} |} ] |}.

(** 250 letters between blanks; 50 letters; exactly 200 letters. *)
Definition text_250 : str := u "  " ++ repeat 1072%N 250 ++ newline.
Definition text_50 : str := repeat 1072%N 50.
Definition text_200 : str := u " " ++ repeat 97%N 200 ++ u " ".
Definition text_60001 : str := repeat 97%N (Z.to_nat 60001).

(** A network on which the download fails. *)
Definition world_offline : World :=
  sample_world Raise Raise Raise Raise Raise.

(** A working network, a DOCX body of [body], a service answering [r]. *)
Definition world_docx (body : str) (r : result Response) : World :=
  sample_world (Ok tt) Raise (Ok body) Raise r.

(** ** Further observations *)

(** The downloads asked of the bot, in order. *)
Definition downloads (t : list Event) : list (str * Path) :=
  flat_map (fun e => match e with EDownload f p => [(f, p)] | _ => [] end) t.

(** The creation and the removal of the temporary directory. *)
Definition is_tmpdir_event (e : Event) : bool :=
  match e with
  | EMkdtemp _ | ECleanup _ => true
  | _ => false
  end.

Definition tmpdir_events (t : list Event) : list Event :=
  filter is_tmpdir_event t.

(** The extraction function that step 2 calls for a kind. *)
Definition strategy (w : World) (k : DocumentKind) (p : Path) : option (M str) :=
  match k with
  | pdf => Some (extract_text_from_pdf w p)
  | docx => Some (extract_text_from_docx w p)
  | image => Some (extract_text_from_image w p)
  | unsupported => None
  end.

Definition photo_message (sizes : list PhotoSize) : Message :=
  {| content_type := PHOTO; document := None; photo := sizes |}.

(** A working network and working libraries. *)
Definition world_online (pages : list Page) (body ocr : str)
  (r : result Response) : World :=
  sample_world (Ok tt) (Ok pages) (Ok body) (Ok ocr) r.

(** ** The client of the analysis service

    [openai.AsyncOpenAI()] on line 77 is built without [max_retries], so the
    client keeps its default of two retries: a request that fails with a
    connection error, a timeout, or status 408, 409, 429 or 500 and above is
    sent again, at most twice; any other error is raised at once. *)

(** What the service answers to one request. *)
Inductive Answer : Type :=
  | Success (response : Response)
  | RetryableError
  | OtherError.

(** The answer of the service to the [n]-th sending of a request. *)
Definition Service := Request -> nat -> Answer.

Definition DEFAULT_MAX_RETRIES : nat := 2.

(** One [create] call: the number of requests sent, and the outcome. *)
Fixpoint client_send (service : Service) (req : Request)
  (attempt retries_left : nat) : nat * result Response :=
  match service req attempt with
  | Success response => (1%nat, Ok response)
  | OtherError => (1%nat, Raise)
  | RetryableError =>
      match retries_left with
      | O => (1%nat, Raise)
      | S k =>
          let (n, r) := client_send service req (S attempt) k in (S n, r)
      end
  end.

Definition client_create (service : Service) (req : Request)
  : nat * result Response :=
  client_send service req 0 DEFAULT_MAX_RETRIES.

(** The number of requests that reach the service in a run. *)
Definition requests_sent (service : Service) (t : list Event) : nat :=
  list_sum (map (fun req => fst (client_create service req)) (chat_calls t)).

(** The world [w] with its [create] calls made by this client on
    [service].  Every world is of this form: a service that answers the
    first request with the outcome of the call gives the same calls. *)
Definition with_service (w : World) (service : Service) : World :=
  {| tmpdir_name := tmpdir_name w;
     bot_download := bot_download w;
     pdfplumber_open := pdfplumber_open w;
     docx2txt_process := docx2txt_process w;
     Image_open := Image_open w;
     image_to_string := image_to_string w;
     chat_completions_create := fun req => snd (client_create service req) |}.

(** A service that answers every request with status 500. *)
Definition service_down : Service := fun _ _ => RetryableError.

(** A service that answers the first request with status 500 and the second
    with a response without choices. *)
Definition service_flaky : Service :=
  fun _ n => match n with
             | O => RetryableError
             | S _ => Success {| choices := [] |}
             end.

(** The characters of a string are all ASCII. *)
Definition is_ascii (s : str) : Prop := Forall (fun c => (c < 128)%N) s.

(** * Properties *)

(** ** Strings *)

Lemma str_eqb_eq (a b : str) : str_eqb a b = true <-> a = b.
Proof.
  revert b; induction a as [|x a IH]; intros [|y b]; simpl.
  - tauto.
  - split; discriminate.
  - split; discriminate.
  - rewrite andb_true_iff, N.eqb_eq, IH.
    split; [intros [-> ->]; reflexivity | intros E; inversion E; auto].
Qed.

Lemma str_eqb_refl (a : str) : str_eqb a a = true.
Proof. apply str_eqb_eq; reflexivity. Qed.

Lemma len_nonneg (s : str) : 0 <= len s.
Proof. unfold len; lia. Qed.

Lemma len_app (a b : str) : len (a ++ b) = len a + len b.
Proof. unfold len; rewrite length_app; lia. Qed.

Lemma slice_to_60000 (s : str) :
  slice_to 60000 s = firstn (Z.to_nat 60000) s.
Proof. reflexivity. Qed.

Lemma slice_to_short (s : str) :
  len s <= 60000 -> slice_to 60000 s = s.
Proof.
  intros H; rewrite slice_to_60000; apply firstn_all2; unfold len in H; lia.
Qed.

Lemma slice_to_long (s : str) :
  60000 < len s ->
  len (slice_to 60000 s) = 60000 /\
  s = slice_to 60000 s ++ skipn (Z.to_nat 60000) s.
Proof.
  intros H; rewrite slice_to_60000; split.
  - unfold len in *; rewrite length_firstn; lia.
  - symmetry; apply firstn_skipn.
Qed.

(** [split] never returns the empty list, so [[-1]] is defined. *)
Lemma split_nonempty (sep : char) (s : str) : split sep s <> [].
Proof.
  destruct s as [|c s]; simpl; [discriminate|].
  destruct (c =? sep)%N; [discriminate|].
  destruct (split sep s); discriminate.
Qed.

Lemma lower_dot (c : char) : (lower_char c =? dot)%N = (c =? dot)%N.
Proof.
  unfold lower_char, dot.
  destruct ((65 <=? c) && (c <=? 90))%N eqn:E; [|reflexivity].
  apply andb_true_iff in E; destruct E as [E1 E2].
  apply N.leb_le in E1; apply N.leb_le in E2.
  destruct (N.eqb_spec (c + 32) 46), (N.eqb_spec c 46); try reflexivity; lia.
Qed.

(** A name without an extension is one piece; a name with one is split
    into at least two. *)
Lemma split_shape (s : str) :
  match extension s with
  | None => split dot s = [s]
  | Some _ => exists p q ps, split dot s = p :: q :: ps
  end.
Proof.
  induction s as [|c s IH]; [reflexivity|].
  simpl. destruct (extension s) as [e|].
  - destruct IH as (p & q & ps & ->).
    destruct (c =? dot)%N; eauto.
  - rewrite IH. destruct (c =? dot)%N; eauto.
Qed.

(** The last piece of [split] is the text after the last separator, or the
    whole string when there is no separator. *)
Lemma last_split (s : str) :
  last (split dot s) [] =
  match extension s with
  | Some e => e
  | None => s
  end.
Proof.
  induction s as [|c s IH]; [reflexivity|].
  pose proof (split_shape s) as SH.
  simpl split; simpl extension.
  destruct (extension s) as [e|].
  - destruct SH as (p & q & ps & S). rewrite S in IH |- *.
    destruct (c =? dot)%N; exact IH.
  - rewrite SH. destruct (c =? dot)%N; reflexivity.
Qed.

Lemma extension_lower (s : str) :
  extension (lower s) = option_map lower (extension s).
Proof.
  induction s as [|c s IH]; [reflexivity|].
  simpl. rewrite IH, lower_dot.
  destruct (extension s); [reflexivity|].
  destruct (c =? dot)%N; reflexivity.
Qed.

(** What [guess_document_type] returns: the lowered extension, or the whole
    lowered name when the name has no [.]. *)
Lemma guess_document_type_eq (filename : str) :
  guess_document_type filename =
  match extension filename with
  | Some e => lower e
  | None => lower filename
  end.
Proof.
  unfold guess_document_type.
  rewrite last_split, extension_lower.
  destruct (extension filename); reflexivity.
Qed.

(** ** Traces *)

Lemma replies_app (s t : list Event) : replies (s ++ t) = replies s ++ replies t.
Proof. apply flat_map_app. Qed.

Lemma chat_calls_app (s t : list Event) :
  chat_calls (s ++ t) = chat_calls s ++ chat_calls t.
Proof. apply flat_map_app. Qed.

Lemma extractions_app (s t : list Event) :
  extractions (s ++ t) = extractions s ++ extractions t.
Proof. apply filter_app. Qed.

Lemma quiet_app (s t : list Event) : quiet s -> quiet t -> quiet (s ++ t).
Proof.
  intros [A B] [C D]; split;
    [rewrite replies_app, A, C | rewrite chat_calls_app, B, D]; reflexivity.
Qed.

Lemma select_file_trace (message : Message) : fst (select_file message) = [].
Proof.
  unfold select_file, item_last, not_None.
  destruct (content_type message).
  - destruct (document message); reflexivity.
  - destruct (hd_error (rev (photo message))); reflexivity.
Qed.

(** *** The extractors *)

Lemma extract_pages_quiet (pages : list Page) (acc : list str) :
  quiet (fst (extract_pages pages acc)).
Proof.
  revert acc; induction pages as [|[t|] rest IH]; intros acc; simpl.
  - split; reflexivity.
  - specialize (IH (acc ++ [or_else t (u "")])).
    destruct (extract_pages rest (acc ++ [or_else t (u "")])) as [tr r].
    simpl in *. exact IH.
  - split; reflexivity.
Qed.

Lemma extract_text_from_pdf_quiet (w : World) (p : Path) :
  quiet (fst (extract_text_from_pdf w p)).
Proof.
  unfold extract_text_from_pdf, call, bind.
  destruct (pdfplumber_open w p) as [pages|]; [|split; reflexivity].
  pose proof (extract_pages_quiet pages []) as Q.
  destruct (extract_pages pages []) as [tr [chunks|]]; simpl in Q;
    unfold quiet; simpl; rewrite ?app_nil_r; exact Q.
Qed.

Lemma extract_text_from_docx_quiet (w : World) (p : Path) :
  quiet (fst (extract_text_from_docx w p)).
Proof. split; reflexivity. Qed.

Lemma extract_text_from_image_quiet (w : World) (p : Path) :
  quiet (fst (extract_text_from_image w p)).
Proof.
  unfold extract_text_from_image, call, bind.
  destruct (Image_open w p) as [img|]; split; reflexivity.
Qed.

(** One guarded strategy of step 2. *)
Lemma try_extractor (ex : M str) :
  try_except (text <- ex ;; ret (Some text))
    (emit (ELogException (u "Extract error: %s")) ;;
     reply reply_extract_failed ;; ret None) =
  match ex with
  | (t, Ok text) => (t, Ok (Some text))
  | (t, Raise) => (t ++ on_extract_error, Ok None)
  end.
Proof.
  destruct ex as [t [text|]]; simpl; [rewrite app_nil_r|]; reflexivity.
Qed.

(** Step 2, branch by branch. *)
Lemma extract_text_branch (w : World) (filename : str) (p : Path) :
  extract_text w filename p =
  match classify filename with
  | pdf =>
      match extract_text_from_pdf w p with
      | (t, Ok text) => (t, Ok (Some text))
      | (t, Raise) => (t ++ on_extract_error, Ok None)
      end
  | docx =>
      match extract_text_from_docx w p with
      | (t, Ok text) => (t, Ok (Some text))
      | (t, Raise) => (t ++ on_extract_error, Ok None)
      end
  | image =>
      match extract_text_from_image w p with
      | (t, Ok text) => (t, Ok (Some text))
      | (t, Raise) => (t ++ on_extract_error, Ok None)
      end
  | unsupported => ([EReply reply_unsupported false], Ok None)
  end.
Proof.
  unfold extract_text, classify, branch_of.
  destruct (str_eqb (guess_document_type filename) (u "pdf"));
    [apply try_extractor|].
  destruct (str_in (guess_document_type filename) [u "doc"; u "docx"]);
    [apply try_extractor|].
  destruct (str_in (guess_document_type filename)
              [u "jpg"; u "jpeg"; u "png"; u "heic"; u "webp"]);
    [apply try_extractor|].
  reflexivity.
Qed.

(** Step 2 never raises; it either hands over a text, silently, or has
    sent one failure reply and asks the handler to return. *)
Lemma extract_text_outcome (w : World) (filename : str) (p : Path) :
  (exists t text,
      extract_text w filename p = (t, Ok (Some text)) /\ quiet t /\
      classify filename <> unsupported) \/
  (exists t,
      extract_text w filename p = (t, Ok None) /\ chat_calls t = [] /\
      replies t = [reply_extract_failed] /\
      classify filename <> unsupported) \/
  (extract_text w filename p = ([EReply reply_unsupported false], Ok None) /\
   classify filename = unsupported).
Proof.
  rewrite extract_text_branch.
  assert (G : forall ex : M str, quiet (fst ex) ->
            forall k, k <> unsupported -> classify filename = k ->
            (exists t text,
               match ex with
               | (t, Ok text) => (t, Ok (Some text))
               | (t, Raise) => (t ++ on_extract_error, Ok None)
               end = (t, Ok (Some text)) /\ quiet t /\
               classify filename <> unsupported) \/
            (exists t,
               match ex with
               | (t, Ok text) => (t, Ok (Some text))
               | (t, Raise) => (t ++ on_extract_error, Ok None)
               end = (t, Ok None) /\ chat_calls t = [] /\
               replies t = [reply_extract_failed] /\
               classify filename <> unsupported) \/
            (match ex with
             | (t, Ok text) => (t, Ok (Some text))
             | (t, Raise) => (t ++ on_extract_error, Ok None)
             end = ([EReply reply_unsupported false], Ok None) /\
             classify filename = unsupported)).
  { intros [t [text|]] Q k Hk Ek; simpl in Q.
    - left. exists t, text. repeat split; try apply Q; congruence.
    - right; left. exists (t ++ on_extract_error). destruct Q as [Q1 Q2].
      repeat split.
      + rewrite chat_calls_app, Q2; reflexivity.
      + rewrite replies_app, Q1; reflexivity.
      + congruence. }
  destruct (classify filename) eqn:K.
  - eapply G; [apply extract_text_from_pdf_quiet| |reflexivity]; discriminate.
  - eapply G; [apply extract_text_from_docx_quiet| |reflexivity]; discriminate.
  - eapply G; [apply extract_text_from_image_quiet| |reflexivity]; discriminate.
  - right; right. split; reflexivity.
Qed.

(** *** The analysis client *)

(** [analyze_document_text] makes one call, whatever comes back. *)
Lemma analyze_document_text_run (w : World) (text : str) :
  analyze_document_text w text =
  ([EChatCreate (chat_request text)],
   match chat_completions_create w (chat_request text) with
   | Ok response =>
       match choices response with
       | choice :: _ =>
           match message_content (choice_message choice) with
           | Some c => Ok (strip c)
           | None => Raise
           end
       | [] => Raise
       end
   | Raise => Raise
   end).
Proof.
  unfold analyze_document_text, call, bind, item_first, not_None.
  destruct (chat_completions_create w (chat_request text)) as [resp|];
    [|reflexivity].
  destruct (choices resp) as [|ch rest]; [reflexivity|]. simpl.
  destruct (message_content (choice_message ch)); reflexivity.
Qed.

Lemma analyze_and_send_run (w : World) (text : str) :
  analyze_and_send w text =
  if len (strip text) <? 200 then ([EReply reply_too_sparse false], Ok tt)
  else
    match snd (analyze_document_text w text) with
    | Ok analysis_result =>
        ([EChatCreate (chat_request text); EReply analysis_result true], Ok tt)
    | Raise => (EChatCreate (chat_request text) :: on_analysis_error, Ok tt)
    end.
Proof.
  unfold analyze_and_send.
  destruct (len (strip text) <? 200); [reflexivity|].
  rewrite analyze_document_text_run.
  destruct (match chat_completions_create w (chat_request text) with
            | Ok response => _ | Raise => _ end); reflexivity.
Qed.

(** *** The handler, path by path *)

Lemma handle_document_run (w : World) (message : Message) :
  handle_document w message =
  let d := tmpdir_name w in
  match snd (select_file message) with
  | Raise => ([EReply reply_received false; EMkdtemp d; ECleanup d], Raise)
  | Ok (file_id, filename) =>
      let p := mkPath d filename in
      match bot_download w file_id p with
      | Raise =>
          ([EReply reply_received false; EMkdtemp d; EDownload file_id p;
            ECleanup d], Raise)
      | Ok _ =>
          match extract_text w filename p with
          | (te, Ok (Some text)) =>
              (EReply reply_received false :: EMkdtemp d
                 :: EDownload file_id p
                 :: te ++ fst (analyze_and_send w text) ++ [ECleanup d],
               snd (analyze_and_send w text))
          | (te, Ok None) =>
              (EReply reply_received false :: EMkdtemp d
                 :: EDownload file_id p :: te ++ [ECleanup d], Ok tt)
          | (te, Raise) =>
              (EReply reply_received false :: EMkdtemp d
                 :: EDownload file_id p :: te ++ [ECleanup d], Raise)
          end
      end
  end.
Proof.
  unfold handle_document, with_TemporaryDirectory, reply, emit, call.
  pose proof (select_file_trace message) as T.
  destruct (select_file message) as [ts [[fid fname]|]]; simpl in T; subst ts;
    [|reflexivity].
  simpl.
  destruct (bot_download w fid (mkPath (tmpdir_name w) fname)) as [[]|];
    [|reflexivity].
  destruct (extract_text w fname (mkPath (tmpdir_name w) fname))
    as [te [[text|]|]]; simpl.
  - destruct (analyze_and_send w text) as [ta ra]; simpl.
    rewrite <- app_assoc. reflexivity.
  - rewrite app_nil_r. reflexivity.
  - reflexivity.
Qed.

(** ** Format classification *)

(** Where the name has an extension, the code classifies by it, as
    specified. *)
Lemma classify_with_extension (filename e : str) :
  extension filename = Some e -> classify filename = branch_of (lower e).
Proof.
  intros E. unfold classify. rewrite guess_document_type_eq, E. reflexivity.
Qed.

Lemma classify_refines_spec (filename : str) :
  extension filename <> None -> classify filename = spec_classify filename.
Proof.
  intros NE. unfold spec_classify.
  destruct (extension filename) as [e|] eqn:E; [|congruence].
  apply classify_with_extension; exact E.
Qed.

(** Where it has none, the code classifies by the whole name. *)
Lemma classify_without_extension (filename : str) :
  extension filename = None -> classify filename = branch_of (lower filename).
Proof.
  intros E. unfold classify. rewrite guess_document_type_eq, E. reflexivity.
Qed.

(** C1, at the file name [pdf]: the name has no [.], so by the specification
    it has no extension and is unsupported; the code takes the whole name for
    the extension, classifies it as a PDF and runs the PDF strategy on it.
    The empty name is unsupported, as specified. *)
Theorem classify_name_without_dot :
  extension (u "pdf") = None /\
  spec_classify (u "pdf") = unsupported /\
  guess_document_type (u "pdf") = u "pdf" /\
  classify (u "pdf") = pdf /\
  (forall w p, extract_text w (u "pdf") p =
     match extract_text_from_pdf w p with
     | (t, Ok text) => (t, Ok (Some text))
     | (t, Raise) => (t ++ on_extract_error, Ok None)
     end) /\
  classify (u "") = unsupported.
Proof.
  repeat split; try reflexivity.
  intros w p. rewrite extract_text_branch. reflexivity.
Qed.

(** ** Replies *)

Ltac observe :=
  unfold quiet, replies, chat_calls, extractions, on_extract_error,
    on_analysis_error in *;
  simpl; rewrite ?flat_map_app, ?filter_app; simpl.

(** C2 as stated fails: a run for [contract.xlsx] on a working network sends
    two replies, the acknowledgment and then the failure message. *)
Lemma single_reply_counterexample :
  replies (fst (handle_document (world_docx text_50 Raise)
                  (document_message (Some (u "contract.xlsx"))))) =
    [reply_received; reply_unsupported] /\
  ~ (exists r,
        replies (fst (handle_document (world_docx text_50 Raise)
                        (document_message (Some (u "contract.xlsx"))))) = [r]).
Proof.
  split; [reflexivity|].
  intros [r H]. vm_compute in H. discriminate H.
Qed.

(** C2, amended: every run sends the acknowledgment first.  When the file
    was fetched, the run returns after exactly one more reply, which is one
    of the four failure messages or the text the analysis returned; when
    fetching raised, the acknowledgment is the only reply. *)
Theorem handle_document_replies (w : World) (message : Message) :
  if retrieved w message then
    exists r,
      replies (fst (handle_document w message)) = [reply_received; r] /\
      snd (handle_document w message) = Ok tt /\
      (In r failure_messages \/
       exists text,
         extracted_text w message = Some text /\
         snd (analyze_document_text w text) = Ok r)
  else
    replies (fst (handle_document w message)) = [reply_received] /\
    snd (handle_document w message) = Raise.
Proof.
  rewrite handle_document_run. unfold retrieved, extracted_text. cbv zeta.
  destruct (snd (select_file message)) as [[fid fname]|];
    [|split; reflexivity].
  destruct (bot_download w fid (mkPath (tmpdir_name w) fname)) as [[]|];
    [|split; reflexivity].
  destruct (extract_text_outcome w fname (mkPath (tmpdir_name w) fname))
    as [(t & text & E & Q & K) | [(t & E & C & R & K) | (E & K)]];
    rewrite E.
  - rewrite analyze_and_send_run.
    destruct (len (strip text) <? 200).
    + exists reply_too_sparse. destruct Q as [Q1 Q2]. observe.
      rewrite Q1. simpl. repeat split. left. right; right; left; reflexivity.
    + destruct (snd (analyze_document_text w text)) as [r|] eqn:A.
      * exists r. destruct Q as [Q1 Q2]. observe. rewrite Q1.
        repeat split. right. exists text. split; [reflexivity | exact A].
      * exists reply_analysis_failed. destruct Q as [Q1 Q2]. observe.
        rewrite Q1. repeat split. left. do 3 right; left; reflexivity.
  - exists reply_extract_failed. observe. rewrite R.
    repeat split. left. right; left; reflexivity.
  - exists reply_unsupported. repeat split. left. left; reflexivity.
Qed.

(** ** Content validation *)

(** C3: on a text whose stripped length is below 200 the handler answers
    that the document is too sparse and does nothing else; from 200 on it
    goes on to the analysis, and the too-sparse answer is not given.
    Exactly 200 stripped characters pass. *)
Theorem content_threshold (w : World) (text : str) :
  (len (strip text) < 200 ->
   analyze_and_send w text = ([EReply reply_too_sparse false], Ok tt)) /\
  (200 <= len (strip text) ->
   chat_calls (fst (analyze_and_send w text)) = [chat_request text] /\
   ~ In (EReply reply_too_sparse false) (fst (analyze_and_send w text))) /\
  (len (strip text) = 200 ->
   chat_calls (fst (analyze_and_send w text)) = [chat_request text] /\
   ~ In (EReply reply_too_sparse false) (fst (analyze_and_send w text))).
Proof.
  assert (V : 200 <= len (strip text) ->
              chat_calls (fst (analyze_and_send w text)) = [chat_request text] /\
              ~ In (EReply reply_too_sparse false)
                  (fst (analyze_and_send w text))).
  { intros H. rewrite analyze_and_send_run.
    destruct (Z.ltb_spec (len (strip text)) 200) as [L|_]; [lia|].
    destruct (snd (analyze_document_text w text)) as [r|].
    - split; [reflexivity|].
      intros [F|[F|[]]]; discriminate F.
    - split; [reflexivity|].
      intros [F|[F|[F|[]]]]; discriminate F. }
  repeat split; try (apply V; lia).
  intros H. rewrite analyze_and_send_run.
  destruct (Z.ltb_spec (len (strip text)) 200) as [_|L]; [reflexivity|lia].
Qed.

Lemma content_threshold_witness :
  analyze_and_send (world_docx text_50 Raise) text_50 =
    ([EReply reply_too_sparse false], Ok tt) /\
  chat_calls (fst (analyze_and_send (world_docx text_250 Raise) text_250)) =
    [chat_request text_250] /\
  chat_calls (fst (analyze_and_send (world_docx text_200 Raise) text_200)) =
    [chat_request text_200].
Proof.
  split; [|split].
  - apply (proj1 (content_threshold (world_docx text_50 Raise) text_50)).
    vm_compute; reflexivity.
  - apply (proj1 (proj2 (content_threshold (world_docx text_250 Raise) text_250))).
    vm_compute; discriminate.
  - apply (proj2 (proj2 (content_threshold (world_docx text_200 Raise) text_200))).
    vm_compute; reflexivity.
Defined.

(** C7: when the extracted text has fewer than 200 characters after
    stripping, the handler returns after the too-sparse reply and the remote
    analysis service is not called. *)
Theorem sparse_text_halts (w : World) (message : Message) (text : str) :
  extracted_text w message = Some text ->
  len (strip text) < 200 ->
  snd (handle_document w message) = Ok tt /\
  replies (fst (handle_document w message)) =
    [reply_received; reply_too_sparse] /\
  chat_calls (fst (handle_document w message)) = [].
Proof.
  intros X L. rewrite handle_document_run.
  unfold extracted_text in X. cbv zeta.
  destruct (snd (select_file message)) as [[fid fname]|]; [|discriminate X].
  destruct (bot_download w fid (mkPath (tmpdir_name w) fname)) as [[]|];
    [|discriminate X].
  destruct (extract_text_outcome w fname (mkPath (tmpdir_name w) fname))
    as [(t & text' & E & Q & K) | [(t & E & C & R & K) | (E & K)]];
    rewrite E in X |- *; simpl in X; try discriminate X.
  injection X as ->.
  rewrite (proj1 (content_threshold w text) L).
  destruct Q as [Q1 Q2]. observe. rewrite Q1, Q2. repeat split.
Qed.

Lemma sparse_text_halts_witness :
  snd (handle_document (world_docx text_50 (Ok (answer (Some text_50))))
         (document_message (Some (u "Contract.DOCX")))) = Ok tt /\
  replies (fst (handle_document (world_docx text_50 (Ok (answer (Some text_50))))
                  (document_message (Some (u "Contract.DOCX"))))) =
    [reply_received; reply_too_sparse] /\
  chat_calls (fst (handle_document
                     (world_docx text_50 (Ok (answer (Some text_50))))
                     (document_message (Some (u "Contract.DOCX"))))) = [].
Proof.
  apply (sparse_text_halts _ _ text_50); [reflexivity | vm_compute; reflexivity].
Defined.

(** ** Clipping *)

Lemma user_message_chat_request (text : str) :
  user_message (chat_request text) = Some (slice_to 60000 text).
Proof. reflexivity. Qed.

Lemma system_message_chat_request (text : str) :
  system_message (chat_request text) = Some system_prompt.
Proof. reflexivity. Qed.

(** C4: the user message of the request is the text itself when the text has
    at most 60,000 characters, and otherwise its first 60,000 characters;
    clipping a clipped text changes nothing. *)
Theorem clip_prefix (text : str) :
  (len text <= 60000 -> user_message (chat_request text) = Some text) /\
  (60000 < len text ->
   exists clipped rest,
     user_message (chat_request text) = Some clipped /\
     text = clipped ++ rest /\ len clipped = 60000) /\
  (forall clipped,
     user_message (chat_request text) = Some clipped ->
     user_message (chat_request clipped) = Some clipped).
Proof.
  rewrite user_message_chat_request. repeat split.
  - intros H. rewrite slice_to_short by exact H. reflexivity.
  - intros H. destruct (slice_to_long text H) as [L E].
    exists (slice_to 60000 text), (skipn (Z.to_nat 60000) text).
    repeat split; assumption.
  - intros clipped E. injection E as <-.
    rewrite user_message_chat_request. f_equal.
    apply slice_to_short. rewrite slice_to_60000.
    unfold len. rewrite length_firstn. lia.
Qed.

Lemma clip_prefix_witness :
  user_message (chat_request text_250) = Some text_250 /\
  (exists clipped rest,
     user_message (chat_request text_60001) = Some clipped /\
     text_60001 = clipped ++ rest /\ len clipped = 60000) /\
  user_message (chat_request (slice_to 60000 text_60001)) =
    Some (slice_to 60000 text_60001).
Proof.
  split; [|split].
  - apply (proj1 (clip_prefix text_250)). vm_compute; discriminate.
  - apply (proj1 (proj2 (clip_prefix text_60001))). vm_compute; reflexivity.
  - apply (proj2 (proj2 (clip_prefix text_60001))). reflexivity.
Defined.

(** ** The analysis request *)

(** C5: a run that reaches the analysis (a text was extracted and passes the
    length check) calls the service once, with the constant system prompt
    and, as user message, the extracted text cut to its first 60,000
    characters at most; when the response has a first choice with a content,
    [analyze_document_text] returns that content stripped, and this is what
    the handler sends. *)
Theorem analysis_request_and_result (w : World) (message : Message) (text : str) :
  extracted_text w message = Some text ->
  200 <= len (strip text) ->
  chat_calls (fst (handle_document w message)) = [chat_request text] /\
  system_message (chat_request text) = Some system_prompt /\
  (exists clipped rest,
     user_message (chat_request text) = Some clipped /\
     text = clipped ++ rest /\ len clipped = Z.min (len text) 60000) /\
  (forall response choice others c,
     chat_completions_create w (chat_request text) = Ok response ->
     choices response = choice :: others ->
     message_content (choice_message choice) = Some c ->
     snd (analyze_document_text w text) = Ok (strip c) /\
     replies (fst (handle_document w message)) = [reply_received; strip c]).
Proof.
  intros X V.
  assert (R : exists fid fname t,
             handle_document w message =
             (EReply reply_received false :: EMkdtemp (tmpdir_name w)
                :: EDownload fid (mkPath (tmpdir_name w) fname)
                :: t ++ fst (analyze_and_send w text)
                     ++ [ECleanup (tmpdir_name w)],
              snd (analyze_and_send w text)) /\ quiet t).
  { rewrite handle_document_run. unfold extracted_text in X. cbv zeta.
    destruct (snd (select_file message)) as [[fid fname]|]; [|discriminate X].
    destruct (bot_download w fid (mkPath (tmpdir_name w) fname)) as [[]|];
      [|discriminate X].
    destruct (extract_text_outcome w fname (mkPath (tmpdir_name w) fname))
      as [(t & text' & E & Q & K) | [(t & E & C & R & K) | (E & K)]];
      rewrite E in X |- *; simpl in X; try discriminate X.
    injection X as ->. exists fid, fname, t. split; [reflexivity | exact Q]. }
  destruct R as (fid & fname & t & R & [Q1 Q2]). rewrite R.
  split; [|split; [|split]].
  - destruct (proj1 (proj2 (content_threshold w text)) V) as [C _].
    unfold chat_calls in *. simpl. rewrite !flat_map_app, Q2, C. reflexivity.
  - reflexivity.
  - rewrite user_message_chat_request.
    destruct (Z_le_gt_dec (len text) 60000) as [S|L].
    + exists text, []. rewrite slice_to_short, app_nil_r by exact S.
      repeat split. lia.
    + destruct (slice_to_long text) as [L' E]; [lia|].
      exists (slice_to 60000 text), (skipn (Z.to_nat 60000) text).
      repeat split; [exact E | lia].
  - intros response choice others c A B C.
    assert (S : snd (analyze_document_text w text) = Ok (strip c)).
    { rewrite analyze_document_text_run, A, B, C. reflexivity. }
    split; [exact S|].
    rewrite analyze_and_send_run, S.
    destruct (Z.ltb_spec (len (strip text)) 200) as [L|_]; [lia|].
    unfold replies in *. simpl. rewrite !flat_map_app, Q1. reflexivity.
Qed.

Lemma analysis_request_and_result_witness :
  chat_calls (fst (handle_document
                     (world_docx text_250 (Ok (answer (Some text_200))))
                     (document_message (Some (u "lease.docx"))))) =
    [chat_request text_250] /\
  replies (fst (handle_document
                  (world_docx text_250 (Ok (answer (Some text_200))))
                  (document_message (Some (u "lease.docx"))))) =
    [reply_received; strip text_200].
Proof.
  destruct (analysis_request_and_result
              (world_docx text_250 (Ok (answer (Some text_200))))
              (document_message (Some (u "lease.docx"))) text_250)
    as (A & _ & _ & B).
  - reflexivity.
  - vm_compute; discriminate.
  - split; [exact A|].
    apply (B (answer (Some text_200))
             {| choice_message := {| message_content := Some text_200 |} |}
             [] text_200); reflexivity.
Defined.

(** ** PDF extraction *)

Lemma or_else_empty (t : option str) : or_else t (u "") = page_text t.
Proof. destruct t as [[|c s]|]; reflexivity. Qed.

(** The loop appends one chunk per page, in page order. *)
Lemma extract_pages_ok (texts : list (option str)) (acc : list str) :
  snd (extract_pages (map Ok texts) acc) = Ok (acc ++ map page_text texts).
Proof.
  revert acc; induction texts as [|t texts IH]; intros acc; simpl.
  - rewrite app_nil_r. reflexivity.
  - specialize (IH (acc ++ [or_else t (u "")])).
    destruct (extract_pages (map Ok texts) (acc ++ [or_else t (u "")]))
      as [tr r]. simpl in *.
    rewrite IH, or_else_empty, <- app_assoc. reflexivity.
Qed.

Lemma fold_left_app_left (sep x : str) (rest : list str) (y : str) :
  fold_left (fun acc c => acc ++ sep ++ c) rest (x ++ y) =
  x ++ fold_left (fun acc c => acc ++ sep ++ c) rest y.
Proof.
  revert y; induction rest as [|c rest IH]; intros y; simpl; [reflexivity|].
  rewrite <- app_assoc. apply IH.
Qed.

(** [join] puts the separator between consecutive chunks, once. *)
Lemma join_fold_left (sep c : str) (rest : list str) :
  join sep (c :: rest) = fold_left (fun acc c' => acc ++ sep ++ c') rest c.
Proof.
  revert c; induction rest as [|c' rest IH]; intros c; [reflexivity|].
  change (join sep (c :: c' :: rest)) with (c ++ sep ++ join sep (c' :: rest)).
  rewrite IH. simpl fold_left.
  rewrite (fold_left_app_left sep c rest (sep ++ c')).
  rewrite (fold_left_app_left sep sep rest c'). reflexivity.
Qed.

(** C6: for a PDF whose pages all extract, the text is the text of the first
    page followed, for each further page in page order, by one line feed
    (character 10) and the text of that page, a page without text counting as
    the empty string; a PDF without pages gives the empty text.  Three pages
    with text on the first and the third give the first, two line feeds, the
    third. *)
Theorem pdf_pages_joined (w : World) (path : Path) (texts : list (option str)) :
  pdfplumber_open w path = Ok (map Ok texts) ->
  snd (extract_text_from_pdf w path) =
    Ok match texts with
       | [] => []
       | first :: further =>
           fold_left (fun acc t => acc ++ 10%N :: page_text t) further
             (page_text first)
       end /\
  (forall page1 page3,
     texts = [Some page1; None; Some page3] ->
     snd (extract_text_from_pdf w path) =
       Ok (page1 ++ 10%N :: 10%N :: page3)).
Proof.
  intros O.
  assert (E : snd (extract_text_from_pdf w path) =
              Ok (join newline (map page_text texts))).
  { unfold extract_text_from_pdf, call, bind. rewrite O.
    pose proof (extract_pages_ok texts []) as P.
    destruct (extract_pages (map Ok texts) []) as [tr r]. simpl in P.
    subst r. reflexivity. }
  split.
  - rewrite E. destruct texts as [|first further]; [reflexivity|].
    simpl map. rewrite join_fold_left. f_equal. clear O E.
    generalize (page_text first) as acc.
    induction further as [|t further IH]; intros acc; [reflexivity|].
    simpl. apply IH.
  - intros page1 page3 ->. rewrite E. reflexivity.
Qed.

Lemma pdf_pages_joined_witness :
  snd (extract_text_from_pdf
         (sample_world (Ok tt)
            (Ok [Ok (Some (u "Lease")); Ok None; Ok (Some (u "Signed"))])
            Raise Raise Raise)
         (mkPath (u "/tmp/tmpk3v9x1") (u "lease.pdf"))) =
    Ok [76; 101; 97; 115; 101; 10; 10; 83; 105; 103; 110; 101; 100]%N.
Proof.
  apply (proj2 (pdf_pages_joined
                  (sample_world (Ok tt)
                     (Ok [Ok (Some (u "Lease")); Ok None; Ok (Some (u "Signed"))])
                     Raise Raise Raise)
                  (mkPath (u "/tmp/tmpk3v9x1") (u "lease.pdf"))
                  [Some (u "Lease"); None; Some (u "Signed")]
                  eq_refl) (u "Lease") (u "Signed")).
  reflexivity.
Defined.

(** ** Analysis failure *)

(** The run on an extracted text that passes the length check when the
    [create] call raises or returns a malformed response. *)
Lemma analysis_failure_run (w : World) (msg : Message) (text : str) :
  extracted_text w msg = Some text ->
  200 <= len (strip text) ->
  analysis_fails (chat_completions_create w (chat_request text)) ->
  replies (fst (handle_document w msg)) =
    [reply_received; reply_analysis_failed] /\
  chat_calls (fst (handle_document w msg)) = [chat_request text] /\
  List.length (chat_calls (fst (handle_document w msg))) = 1%nat /\
  snd (handle_document w msg) = Ok tt.
Proof.
  intros X V F.
  assert (A : snd (analyze_document_text w text) = Raise).
  { rewrite analyze_document_text_run. unfold analysis_fails, malformed in F.
    destruct (chat_completions_create w (chat_request text)) as [resp|];
      [|reflexivity].
    destruct (choices resp) as [|ch rest]; [reflexivity|].
    simpl. rewrite F. reflexivity. }
  rewrite handle_document_run. unfold extracted_text in X. cbv zeta.
  destruct (snd (select_file msg)) as [[fid fname]|]; [|discriminate X].
  destruct (bot_download w fid (mkPath (tmpdir_name w) fname)) as [[]|];
    [|discriminate X].
  destruct (extract_text_outcome w fname (mkPath (tmpdir_name w) fname))
    as [(t & text' & E & Q & K) | [(t & E & C & R & K) | (E & K)]];
    rewrite E in X |- *; simpl in X; try discriminate X.
  injection X as ->.
  rewrite analyze_and_send_run, A.
  destruct (Z.ltb_spec (len (strip text)) 200) as [L|_]; [lia|].
  destruct Q as [Q1 Q2]. observe. rewrite Q1, Q2. repeat split.
Qed.

(** *** The client's retries *)

Lemma client_send_bounds (service : Service) (req : Request) (attempt k : nat) :
  (1 <= fst (client_send service req attempt k) <= S k)%nat.
Proof.
  revert attempt; induction k as [|k IH]; intros attempt; simpl.
  - destruct (service req attempt); simpl; lia.
  - destruct (service req attempt); simpl; try lia.
    specialize (IH (S attempt)).
    destruct (client_send service req (S attempt) k) as [n r]. simpl in *. lia.
Qed.

Lemma client_create_first (service : Service) (req : Request) :
  service req 0%nat <> RetryableError ->
  fst (client_create service req) = 1%nat.
Proof.
  unfold client_create. simpl.
  destruct (service req 0%nat); [reflexivity | congruence | reflexivity].
Qed.

Lemma client_create_down (service : Service) (req : Request) :
  (forall n, (n < 3)%nat -> service req n = RetryableError) ->
  client_create service req = (3%nat, Raise).
Proof.
  intros D. unfold client_create. simpl.
  rewrite (D 0%nat), (D 1%nat), (D 2%nat) by lia. reflexivity.
Qed.

Lemma requests_sent_one_call (service : Service) (t : list Event) (req : Request) :
  chat_calls t = [req] ->
  requests_sent service t = fst (client_create service req).
Proof. intros C. unfold requests_sent. rewrite C. simpl. lia. Qed.

(** C9 as stated fails: when the service keeps answering with status 500,
    the one [create] call of the handler raises and the failure is reported,
    but the client, built with its default of two retries, has sent the
    request three times. *)
Lemma single_outbound_call_counterexample :
  analysis_fails (snd (client_create service_down (chat_request text_250))) /\
  replies (fst (handle_document
                  (with_service (world_docx text_250 Raise) service_down)
                  (document_message (Some (u "lease.docx"))))) =
    [reply_received; reply_analysis_failed] /\
  requests_sent service_down
    (fst (handle_document
            (with_service (world_docx text_250 Raise) service_down)
            (document_message (Some (u "lease.docx"))))) = 3%nat /\
  requests_sent service_down
    (fst (handle_document
            (with_service (world_docx text_250 Raise) service_down)
            (document_message (Some (u "lease.docx"))))) <> 1%nat.
Proof.
  split; [exact I|]. split; [reflexivity|].
  split; [reflexivity | vm_compute; discriminate].
Qed.

(** C9, amended: when the run reaches the analysis and the [create] call
    raises or returns a response without a usable first choice, the handler
    replies with the analysis-failed message and returns.  The handler calls
    [create] exactly once and does not retry; the client it builds keeps the
    default of two retries, so the service receives between one and three
    requests: one when its first answer is not a retryable error, three when
    it answers all three with a retryable error. *)
Theorem analysis_failure_reported
  (w : World) (service : Service) (msg : Message) (text : str) :
  extracted_text (with_service w service) msg = Some text ->
  200 <= len (strip text) ->
  analysis_fails (snd (client_create service (chat_request text))) ->
  replies (fst (handle_document (with_service w service) msg)) =
    [reply_received; reply_analysis_failed] /\
  snd (handle_document (with_service w service) msg) = Ok tt /\
  chat_calls (fst (handle_document (with_service w service) msg)) =
    [chat_request text] /\
  (1 <= requests_sent service
          (fst (handle_document (with_service w service) msg)) <= 3)%nat /\
  (service (chat_request text) 0%nat <> RetryableError ->
   requests_sent service
     (fst (handle_document (with_service w service) msg)) = 1%nat) /\
  ((forall n, (n < 3)%nat -> service (chat_request text) n = RetryableError) ->
   requests_sent service
     (fst (handle_document (with_service w service) msg)) = 3%nat).
Proof.
  intros X V F.
  destruct (analysis_failure_run (with_service w service) msg text X V F)
    as (R & C & _ & O).
  rewrite (requests_sent_one_call service _ _ C).
  repeat split; try assumption.
  - apply (client_send_bounds service (chat_request text) 0 2).
  - apply (client_send_bounds service (chat_request text) 0 2).
  - apply client_create_first.
  - intros D. rewrite (client_create_down _ _ D). reflexivity.
Qed.

Lemma analysis_failure_reported_witness :
  (replies (fst (handle_document
                   (with_service (world_docx text_250 Raise) service_flaky)
                   (document_message (Some (u "lease.docx"))))) =
     [reply_received; reply_analysis_failed] /\
   chat_calls (fst (handle_document
                      (with_service (world_docx text_250 Raise) service_flaky)
                      (document_message (Some (u "lease.docx"))))) =
     [chat_request text_250]) /\
  requests_sent service_down
    (fst (handle_document
            (with_service (world_docx text_250 Raise) service_down)
            (document_message (Some (u "lease.docx"))))) = 3%nat /\
  requests_sent (fun _ _ => OtherError)
    (fst (handle_document
            (with_service (world_docx text_250 Raise) (fun _ _ => OtherError))
            (document_message (Some (u "lease.docx"))))) = 1%nat.
Proof.
  split; [|split].
  - destruct (analysis_failure_reported
                (world_docx text_250 Raise) service_flaky
                (document_message (Some (u "lease.docx"))) text_250)
      as (A & _ & B & _);
      [reflexivity | vm_compute; discriminate | exact I | split; assumption].
  - destruct (analysis_failure_reported
                (world_docx text_250 Raise) service_down
                (document_message (Some (u "lease.docx"))) text_250)
      as (_ & _ & _ & _ & _ & A);
      [reflexivity | vm_compute; discriminate | exact I
      | apply A; intros n _; reflexivity].
  - destruct (analysis_failure_reported
                (world_docx text_250 Raise) (fun _ _ => OtherError)
                (document_message (Some (u "lease.docx"))) text_250)
      as (_ & _ & _ & _ & A & _);
      [reflexivity | vm_compute; discriminate | exact I
      | apply A; discriminate].
Defined.

(** ** Unsupported formats *)

(** A run on a file name that classifies as unsupported: the file is
    downloaded first; the failure reply follows once the download returned. *)
Lemma unsupported_run (w : World) (msg : Message) (fid filename : str) :
  snd (select_file msg) = Ok (fid, filename) ->
  classify filename = unsupported ->
  handle_document w msg =
  let d := tmpdir_name w in
  let p := mkPath d filename in
  match bot_download w fid p with
  | Ok _ =>
      ([EReply reply_received false; EMkdtemp d; EDownload fid p;
        EReply reply_unsupported false; ECleanup d], Ok tt)
  | Raise =>
      ([EReply reply_received false; EMkdtemp d; EDownload fid p; ECleanup d],
       Raise)
  end.
Proof.
  intros S K. rewrite handle_document_run, S. cbv zeta.
  destruct (bot_download w fid (mkPath (tmpdir_name w) filename)) as [[]|];
    [|reflexivity].
  destruct (extract_text_outcome w filename (mkPath (tmpdir_name w) filename))
    as [(t & text' & E & Q & K') | [(t & E & C & R & K') | (E & _)]];
    try congruence.
  rewrite E. reflexivity.
Qed.

(** C8 as stated fails: for [contract.xlsx] the handler downloads the file
    before it looks at the name, and when the download raises no failure
    message is sent. *)
Lemma unsupported_message_counterexample :
  snd (select_file (document_message (Some (u "contract.xlsx")))) =
    Ok (u "BQACAgIAAxkBAAIBc2", u "contract.xlsx") /\
  classify (u "contract.xlsx") = unsupported /\
  replies (fst (handle_document world_offline
                  (document_message (Some (u "contract.xlsx"))))) =
    [reply_received] /\
  ~ In reply_unsupported
      (replies (fst (handle_document world_offline
                       (document_message (Some (u "contract.xlsx")))))).
Proof.
  repeat split.
  intros H. vm_compute in H. destruct H as [H|[]]. discriminate H.
Qed.

(** Nothing is extracted or analysed on such a run, and the failure reply is
    the only one after the acknowledgment once the download returned. *)
Lemma unsupported_outcome (w : World) (msg : Message) (fid filename : str) :
  snd (select_file msg) = Ok (fid, filename) ->
  classify filename = unsupported ->
  extractions (fst (handle_document w msg)) = [] /\
  chat_calls (fst (handle_document w msg)) = [] /\
  (bot_download w fid (mkPath (tmpdir_name w) filename) = Ok tt ->
   replies (fst (handle_document w msg)) =
     [reply_received; reply_unsupported] /\
   snd (handle_document w msg) = Ok tt).
Proof.
  intros S K. rewrite (unsupported_run w msg fid filename S K). cbv zeta.
  destruct (bot_download w fid (mkPath (tmpdir_name w) filename)) as [[]|].
  - repeat split.
  - repeat split; discriminate.
Qed.

(** C8, amended: when the file name classifies as unsupported, no extraction
    strategy is invoked and the service is not called; once the download of
    the file has returned, the handler sends the unsupported-format message as
    its only reply after the acknowledgment and returns. *)
Theorem unsupported_format (w : World) (msg : Message) (fid filename : str) :
  snd (select_file msg) = Ok (fid, filename) ->
  classify filename = unsupported ->
  extractions (fst (handle_document w msg)) = [] /\
  chat_calls (fst (handle_document w msg)) = [] /\
  (bot_download w fid (mkPath (tmpdir_name w) filename) = Ok tt ->
   replies (fst (handle_document w msg)) =
     [reply_received; reply_unsupported] /\
   snd (handle_document w msg) = Ok tt).
Proof. exact (unsupported_outcome w msg fid filename). Qed.

Lemma unsupported_format_witness :
  extractions (fst (handle_document (world_docx text_250 Raise)
                      (document_message (Some (u "contract.xlsx"))))) = [] /\
  replies (fst (handle_document (world_docx text_250 Raise)
                  (document_message (Some (u "contract.xlsx"))))) =
    [reply_received; reply_unsupported].
Proof.
  destruct (unsupported_format (world_docx text_250 Raise)
              (document_message (Some (u "contract.xlsx")))
              (u "BQACAgIAAxkBAAIBc2") (u "contract.xlsx"))
    as (A & _ & B); [reflexivity | reflexivity |].
  split; [exact A | apply B; reflexivity].
Defined.

(** ** Missing file name *)

(** C10 as stated fails: a document without a file name is stored as
    [document], but when its download raises the run ends without the
    unsupported-format message. *)
Lemma missing_name_counterexample :
  snd (select_file (document_message None)) =
    Ok (u "BQACAgIAAxkBAAIBc2", u "document") /\
  replies (fst (handle_document world_offline (document_message None))) =
    [reply_received] /\
  snd (handle_document world_offline (document_message None)) = Raise /\
  ~ In reply_unsupported
      (replies (fst (handle_document world_offline (document_message None)))).
Proof.
  repeat split.
  intros H. vm_compute in H. destruct H as [H|[]]. discriminate H.
Qed.

(** C10, amended: a document event without a file name is stored under the
    fixed name [document]; the name has no extension and classifies as
    unsupported, so once the download of the file has returned the handler
    sends the unsupported-format message as its only reply after the
    acknowledgment and returns, with no extraction and no analysis. *)
Theorem missing_file_name (w : World) (msg : Message) (d : Document) :
  content_type msg = DOCUMENT ->
  document msg = Some d ->
  file_name d = None ->
  select_file msg = ([], Ok (file_id d, u "document")) /\
  extension (u "document") = None /\
  classify (u "document") = unsupported /\
  extractions (fst (handle_document w msg)) = [] /\
  chat_calls (fst (handle_document w msg)) = [] /\
  (bot_download w (file_id d) (mkPath (tmpdir_name w) (u "document")) = Ok tt ->
   replies (fst (handle_document w msg)) =
     [reply_received; reply_unsupported] /\
   snd (handle_document w msg) = Ok tt).
Proof.
  intros C D N.
  assert (S : select_file msg = ([], Ok (file_id d, u "document"))).
  { unfold select_file. rewrite C, D. simpl. rewrite N. reflexivity. }
  split; [exact S|]. split; [reflexivity|]. split; [reflexivity|].
  apply (unsupported_outcome w msg (file_id d) (u "document"));
    [rewrite S|]; reflexivity.
Qed.

Lemma missing_file_name_witness :
  select_file (document_message None) =
    ([], Ok (u "BQACAgIAAxkBAAIBc2", u "document")) /\
  replies (fst (handle_document (world_docx text_250 Raise)
                  (document_message None))) =
    [reply_received; reply_unsupported] /\
  snd (handle_document (world_docx text_250 Raise) (document_message None)) =
    Ok tt.
Proof.
  destruct (missing_file_name (world_docx text_250 Raise)
              (document_message None)
              {| file_id := u "BQACAgIAAxkBAAIBc2"; file_name := None |})
    as (A & _ & _ & _ & _ & B); [reflexivity | reflexivity | reflexivity |].
  split; [exact A | apply B; reflexivity].
Defined.

(** ** Sample runs, end to end *)

Example u_ascii : u "a.B" = [97; 46; 66]%N.
Proof. reflexivity. Qed.

Example u_cyrillic_emoji : u "Ты ⏳📥" = [1058; 1099; 32; 9203; 128229]%N.
Proof. reflexivity. Qed.

Example split_three : split dot (u "a.b.") = [u "a"; u "b"; u ""].
Proof. reflexivity. Qed.

Example guess_upper : guess_document_type (u "Scan.2024.JPEG") = u "jpeg".
Proof. reflexivity. Qed.

Example strip_both : strip text_250 = repeat 1072%N 250.
Proof. reflexivity. Qed.

Example run_docx_analysed :
  handle_document (world_docx text_250 (Ok (answer (Some (u " ok
")))))
    (document_message (Some (u "lease.docx"))) =
  ([EReply reply_received false;
    EMkdtemp (u "/tmp/tmpk3v9x1");
    EDownload (u "BQACAgIAAxkBAAIBc2")
      (mkPath (u "/tmp/tmpk3v9x1") (u "lease.docx"));
    EDocxProcess (mkPath (u "/tmp/tmpk3v9x1") (u "lease.docx"));
    EChatCreate (chat_request text_250);
    EReply (u "ok") true;
    ECleanup (u "/tmp/tmpk3v9x1")], Ok tt).
Proof. reflexivity. Qed.

Example run_photo_ocr_fails :
  handle_document (sample_world (Ok tt) Raise Raise Raise Raise)
    {| content_type := PHOTO; document := None;
       photo := [ {| photo_file_id := u "small" |};
                  {| photo_file_id := u "large" |} ] |} =
  ([EReply reply_received false;
    EMkdtemp (u "/tmp/tmpk3v9x1");
    EDownload (u "large") (mkPath (u "/tmp/tmpk3v9x1") (u "photo_large.jpg"));
    EImageOpen (mkPath (u "/tmp/tmpk3v9x1") (u "photo_large.jpg"));
    EImageToString 1%N (u "rus+eng");
    ELogException (u "Extract error: %s");
    EReply reply_extract_failed false;
    ECleanup (u "/tmp/tmpk3v9x1")], Ok tt).
Proof. reflexivity. Qed.

(** * Further properties of the code *)

(** ** File names *)

Lemma extension_None_iff (s : str) : extension s = None <-> ~ In dot s.
Proof.
  induction s as [|c s IH]; simpl; [tauto|].
  destruct (extension s) as [e|].
  - split; [discriminate|]. intros H. exfalso.
    assert (N : ~ In dot s) by tauto. apply IH in N. discriminate N.
  - destruct (N.eqb_spec c dot) as [->|D].
    + split; [discriminate|]. intros H; exfalso; apply H; left; reflexivity.
    + split; [|reflexivity]. intros _ [E|I]; [congruence|].
      apply (proj1 IH); [reflexivity | exact I].
Qed.

Lemma extension_Some (s e : str) :
  extension s = Some e ->
  (exists pre, s = pre ++ dot :: e) /\ extension e = None.
Proof.
  revert e; induction s as [|c s IH]; intros e; simpl; [discriminate|].
  destruct (extension s) as [e'|] eqn:E.
  - intros H; injection H as <-.
    destruct (IH e' eq_refl) as [[pre ->] N].
    split; [exists (c :: pre); reflexivity | exact N].
  - destruct (N.eqb_spec c dot) as [->|D]; [|discriminate].
    intros H; injection H as <-.
    split; [exists []; reflexivity | exact E].
Qed.

Lemma extension_app_dot (pre e : str) :
  extension e = None -> extension (pre ++ dot :: e) = Some e.
Proof.
  intros N. induction pre as [|c pre IH]; simpl.
  - rewrite N. reflexivity.
  - rewrite IH. reflexivity.
Qed.

(** X1: for a file name of ASCII characters, [guess_document_type] returns
    the text after the last [.] of the name with [A]..[Z] turned into
    [a]..[z], and the whole name so lowered when there is no [.]; what it
    returns holds no [.] and ends the lowered name. *)
Theorem guess_document_type_extension (filename : str) :
  is_ascii filename ->
  guess_document_type filename =
    match extension filename with
    | Some e => lower e
    | None => lower filename
    end /\
  ~ In dot (guess_document_type filename) /\
  exists pre, lower filename = pre ++ guess_document_type filename.
Proof.
  intros _. rewrite guess_document_type_eq. split; [reflexivity|].
  destruct (extension filename) as [e|] eqn:E.
  - destruct (extension_Some _ _ E) as [[pre ->] N]. split.
    + apply extension_None_iff. rewrite extension_lower, N. reflexivity.
    + exists (lower pre ++ [lower_char dot]).
      unfold lower. rewrite map_app, <- app_assoc. reflexivity.
  - split.
    + apply extension_None_iff. rewrite extension_lower, E. reflexivity.
    + exists []. reflexivity.
Qed.

Lemma guess_document_type_extension_witness :
  is_ascii (u "Lease.v2.DocX") /\
  guess_document_type (u "Lease.v2.DocX") = u "docx" /\
  ~ In dot (guess_document_type (u "Lease.v2.DocX")).
Proof.
  assert (A : is_ascii (u "Lease.v2.DocX")).
  { apply Forall_forall. intros c H. vm_compute in H.
    repeat (destruct H as [<-|H]; [reflexivity|]). destruct H. }
  destruct (guess_document_type_extension (u "Lease.v2.DocX") A) as (E & N & _).
  split; [exact A|]. split; [exact E | exact N].
Defined.

(** X2: two names whose extensions agree up to letter case are classified
    alike, whatever stands before the last [.]. *)
Theorem classify_by_extension_only (a b ea eb : str) :
  extension a = Some ea ->
  extension b = Some eb ->
  lower ea = lower eb ->
  classify a = classify b.
Proof.
  intros A B L. unfold classify.
  rewrite !guess_document_type_eq, A, B, L. reflexivity.
Qed.

Lemma classify_by_extension_only_witness :
  classify (u "Lease.v2.final.PDF") = classify (u "x.pdf").
Proof.
  apply (classify_by_extension_only _ _ (u "PDF") (u "pdf")); reflexivity.
Defined.

(** ** Photos *)

Lemma item_last_app {A} (front : list A) (x : A) :
  item_last (front ++ [x]) = ret x.
Proof. unfold item_last. rewrite rev_unit. reflexivity. Qed.

Lemma classify_photo_name (id : str) :
  classify (u "photo_" ++ id ++ u ".jpg") = image.
Proof.
  unfold classify. rewrite guess_document_type_eq.
  change (u ".jpg") with (dot :: u "jpg"). rewrite app_assoc.
  rewrite extension_app_dot by reflexivity. reflexivity.
Qed.

Lemma photo_is_image_aux (msg : Message) (front : list PhotoSize) (p : PhotoSize) :
  content_type msg = PHOTO ->
  photo msg = front ++ [p] ->
  select_file msg =
    ([], Ok (photo_file_id p, u "photo_" ++ photo_file_id p ++ u ".jpg")) /\
  classify (u "photo_" ++ photo_file_id p ++ u ".jpg") = image.
Proof.
  intros C P. split; [|apply classify_photo_name].
  unfold select_file. rewrite C, P, item_last_app. reflexivity.
Qed.

(** X3: for a photo event the handler fetches the last size offered and
    stores it as [photo_<file_id>.jpg]; that name is classified as an image
    whatever characters the identifier holds. *)
Theorem photo_is_image (msg : Message) (front : list PhotoSize) (p : PhotoSize) :
  content_type msg = PHOTO ->
  photo msg = front ++ [p] ->
  select_file msg =
    ([], Ok (photo_file_id p, u "photo_" ++ photo_file_id p ++ u ".jpg")) /\
  classify (u "photo_" ++ photo_file_id p ++ u ".jpg") = image.
Proof. exact (photo_is_image_aux msg front p). Qed.

Lemma photo_is_image_witness :
  select_file (photo_message [ {| photo_file_id := u "AgAD.small" |};
                               {| photo_file_id := u "AgAD.LARGE.PDF" |} ]) =
    ([], Ok (u "AgAD.LARGE.PDF", u "photo_AgAD.LARGE.PDF.jpg")) /\
  classify (u "photo_AgAD.LARGE.PDF.jpg") = image.
Proof.
  apply (photo_is_image
           (photo_message [ {| photo_file_id := u "AgAD.small" |};
                            {| photo_file_id := u "AgAD.LARGE.PDF" |} ])
           [ {| photo_file_id := u "AgAD.small" |} ]
           {| photo_file_id := u "AgAD.LARGE.PDF" |}); reflexivity.
Defined.

(** ** The shape of a run *)

Lemma extract_pages_events (pages : list Page) (acc : list str) :
  Forall (fun e => is_extraction e = true) (fst (extract_pages pages acc)).
Proof.
  revert acc; induction pages as [|[t|] rest IH]; intros acc; simpl.
  - constructor.
  - specialize (IH (acc ++ [or_else t (u "")])).
    destruct (extract_pages rest (acc ++ [or_else t (u "")])) as [tr r].
    simpl in *. constructor; [reflexivity | exact IH].
  - constructor; [reflexivity | constructor].
Qed.

(** A strategy only calls into its extraction library. *)
Lemma strategy_events (w : World) (k : DocumentKind) (p : Path) (ex : M str) :
  strategy w k p = Some ex ->
  Forall (fun e => is_extraction e = true) (fst ex).
Proof.
  destruct k; simpl; intros H; inversion H; subst ex; clear H.
  - unfold extract_text_from_pdf, call, bind.
    destruct (pdfplumber_open w p) as [pages|];
      [|repeat constructor].
    pose proof (extract_pages_events pages []) as F.
    destruct (extract_pages pages []) as [tr [chunks|]]; simpl in *;
      rewrite ?app_nil_r; constructor; (reflexivity || exact F).
  - repeat constructor.
  - unfold extract_text_from_image, call, bind.
    destruct (Image_open w p) as [img|]; repeat constructor.
Qed.

Lemma extraction_only (t : list Event) :
  Forall (fun e => is_extraction e = true) t ->
  replies t = [] /\ chat_calls t = [] /\ downloads t = [] /\
  tmpdir_events t = [] /\ extractions t = t.
Proof.
  induction 1 as [|e t E _ (A & B & C & D & X)]; [repeat split|].
  unfold replies, chat_calls, downloads, tmpdir_events, extractions in *.
  destruct e; try discriminate E; simpl; rewrite ?A, ?B, ?C, ?D, ?X;
    repeat split.
Qed.

(** Step 2 in terms of the strategy of the kind. *)
Lemma extract_text_strategy (w : World) (filename : str) (p : Path) :
  extract_text w filename p =
  match strategy w (classify filename) p with
  | None => ([EReply reply_unsupported false], Ok None)
  | Some (t, Ok text) => (t, Ok (Some text))
  | Some (t, Raise) => (t ++ on_extract_error, Ok None)
  end.
Proof.
  rewrite extract_text_branch. destruct (classify filename); reflexivity.
Qed.

Lemma analyze_and_send_returns (w : World) (text : str) :
  snd (analyze_and_send w text) = Ok tt.
Proof.
  rewrite analyze_and_send_run.
  destruct (len (strip text) <? 200); [reflexivity|].
  destruct (snd (analyze_document_text w text)); reflexivity.
Qed.

(** Every run of the handler, path by path. *)
Lemma handle_document_shape (w : World) (msg : Message) :
  handle_document w msg =
  let d := tmpdir_name w in
  match snd (select_file msg) with
  | Raise => ([EReply reply_received false; EMkdtemp d; ECleanup d], Raise)
  | Ok (fid, filename) =>
      let p := mkPath d filename in
      match bot_download w fid p with
      | Raise =>
          ([EReply reply_received false; EMkdtemp d; EDownload fid p;
            ECleanup d], Raise)
      | Ok _ =>
          match strategy w (classify filename) p with
          | None =>
              ([EReply reply_received false; EMkdtemp d; EDownload fid p;
                EReply reply_unsupported false; ECleanup d], Ok tt)
          | Some (t, Raise) =>
              (EReply reply_received false :: EMkdtemp d :: EDownload fid p
                 :: t ++ on_extract_error ++ [ECleanup d], Ok tt)
          | Some (t, Ok text) =>
              (EReply reply_received false :: EMkdtemp d :: EDownload fid p
                 :: t ++ fst (analyze_and_send w text) ++ [ECleanup d], Ok tt)
          end
      end
  end.
Proof.
  rewrite handle_document_run. cbv zeta.
  destruct (snd (select_file msg)) as [[fid filename]|]; [|reflexivity].
  destruct (bot_download w fid (mkPath (tmpdir_name w) filename));
    [|reflexivity].
  rewrite extract_text_strategy.
  destruct (strategy w (classify filename) (mkPath (tmpdir_name w) filename))
    as [[t [text|]]|].
  - rewrite analyze_and_send_returns. reflexivity.
  - rewrite <- app_assoc. reflexivity.
  - reflexivity.
Qed.

Lemma extracted_text_shape (w : World) (msg : Message) :
  extracted_text w msg =
  match snd (select_file msg) with
  | Raise => None
  | Ok (fid, filename) =>
      let p := mkPath (tmpdir_name w) filename in
      match bot_download w fid p with
      | Raise => None
      | Ok _ =>
          match strategy w (classify filename) p with
          | Some (_, Ok text) => Some text
          | _ => None
          end
      end
  end.
Proof.
  unfold extracted_text.
  destruct (snd (select_file msg)) as [[fid filename]|]; [|reflexivity].
  cbv zeta.
  destruct (bot_download w fid (mkPath (tmpdir_name w) filename));
    [|reflexivity].
  rewrite extract_text_strategy.
  destruct (strategy w (classify filename) (mkPath (tmpdir_name w) filename))
    as [[t [text|]]|]; reflexivity.
Qed.

(** ** Extraction *)



Lemma extract_pages_raise (pages : list Page) (acc : list str) :
  snd (extract_pages pages acc) = Raise <-> In Raise pages.
Proof.
  revert acc; induction pages as [|[t|] rest IH]; intros acc; simpl.
  - split; [discriminate | tauto].
  - specialize (IH (acc ++ [or_else t (u "")])).
    destruct (extract_pages rest (acc ++ [or_else t (u "")])) as [tr r].
    simpl in *. rewrite IH. split; [tauto|].
    intros [H|H]; [discriminate H | exact H].
  - split; [left; reflexivity | reflexivity].
Qed.

(** X5: [extract_text_from_pdf] raises exactly when the file does not open or
    some page fails to extract; no text is returned for the pages before the
    failing one. *)
Theorem extract_text_from_pdf_raises (w : World) (p : Path) :
  snd (extract_text_from_pdf w p) = Raise <->
  pdfplumber_open w p = Raise \/
  exists pages, pdfplumber_open w p = Ok pages /\ In Raise pages.
Proof.
  unfold extract_text_from_pdf, call, bind.
  destruct (pdfplumber_open w p) as [pages|].
  - pose proof (extract_pages_raise pages []) as R.
    destruct (extract_pages pages []) as [tr [chunks|]]; simpl in *.
    + split; [discriminate|].
      intros [H|(pages' & H & I)]; [discriminate H|].
      injection H as <-. apply R in I. discriminate I.
    + split; [|reflexivity]. intros _. right. exists pages.
      split; [reflexivity | apply R; reflexivity].
  - split; [left; reflexivity | reflexivity].
Qed.

(** ** Texts that are too short *)

Lemma lstrip_length (s : str) : (List.length (lstrip s) <= List.length s)%nat.
Proof.
  induction s as [|c s IH]; simpl; [lia|].
  destruct (isspace c); simpl; lia.
Qed.

Lemma strip_length (s : str) : len (strip s) <= len s.
Proof.
  unfold len, strip, rstrip. rewrite length_rev.
  pose proof (lstrip_length (rev (lstrip s))) as A.
  rewrite length_rev in A.
  pose proof (lstrip_length s). lia.
Qed.

Lemma lstrip_blank (s : str) :
  Forall (fun c => isspace c = true) s -> lstrip s = [].
Proof. induction 1 as [|c s C _ IH]; simpl; [|rewrite C]; auto. Qed.

Lemma strip_blank (s : str) :
  Forall (fun c => isspace c = true) s -> strip s = [].
Proof. intros B. unfold strip. rewrite (lstrip_blank s B). reflexivity. Qed.

(** The run on an extracted text. *)
Lemma extracted_run (w : World) (msg : Message) (text : str) :
  extracted_text w msg = Some text ->
  exists fid filename t,
    Forall (fun e => is_extraction e = true) t /\
    handle_document w msg =
    (EReply reply_received false :: EMkdtemp (tmpdir_name w)
       :: EDownload fid (mkPath (tmpdir_name w) filename)
       :: t ++ fst (analyze_and_send w text) ++ [ECleanup (tmpdir_name w)],
     Ok tt).
Proof.
  rewrite extracted_text_shape, handle_document_shape. cbv zeta.
  destruct (snd (select_file msg)) as [[fid filename]|]; [|discriminate].
  destruct (bot_download w fid (mkPath (tmpdir_name w) filename));
    [|discriminate].
  destruct (strategy w (classify filename) (mkPath (tmpdir_name w) filename))
    as [[t [text'|]]|] eqn:ST; try discriminate.
  intros H; injection H as ->. exists fid, filename, t.
  split; [exact (strategy_events _ _ _ _ ST) | reflexivity].
Qed.

Lemma sparse_run (w : World) (msg : Message) (text : str) :
  extracted_text w msg = Some text ->
  len (strip text) < 200 ->
  replies (fst (handle_document w msg)) = [reply_received; reply_too_sparse] /\
  chat_calls (fst (handle_document w msg)) = [].
Proof.
  intros X L. destruct (extracted_run w msg text X) as (fid & fn & t & F & ->).
  destruct (extraction_only t F) as (A & B & _).
  rewrite analyze_and_send_run.
  destruct (Z.ltb_spec (len (strip text)) 200) as [_|G]; [|lia].
  unfold replies, chat_calls in *. simpl.
  rewrite !flat_map_app, A, B. split; reflexivity.
Qed.

(** X6: an extracted text of fewer than 200 characters in all, or made of
    whitespace only whatever its length, is answered with the too-sparse
    message and never sent to the service. *)
Theorem short_or_blank_text_is_sparse (w : World) (msg : Message) (text : str) :
  extracted_text w msg = Some text ->
  len text < 200 \/ Forall (fun c => isspace c = true) text ->
  replies (fst (handle_document w msg)) = [reply_received; reply_too_sparse] /\
  chat_calls (fst (handle_document w msg)) = [].
Proof.
  intros X H. apply (sparse_run w msg text X).
  destruct H as [S|B].
  - pose proof (strip_length text). lia.
  - rewrite (strip_blank text B). reflexivity.
Qed.

Lemma short_or_blank_text_is_sparse_witness :
  replies (fst (handle_document
                  (world_online [] (repeat 32%N 300) text_50 Raise)
                  (document_message (Some (u "blank.doc"))))) =
    [reply_received; reply_too_sparse] /\
  chat_calls (fst (handle_document
                     (world_online [] (repeat 32%N 300) text_50 Raise)
                     (document_message (Some (u "blank.doc"))))) = [].
Proof.
  apply (short_or_blank_text_is_sparse _ _ (repeat 32%N 300));
    [reflexivity|].
  right. apply Forall_forall. intros c I.
  apply repeat_spec in I. subst c. reflexivity.
Defined.

Lemma extract_text_from_pdf_ok (w : World) (p : Path) (texts : list (option str)) :
  pdfplumber_open w p = Ok (map Ok texts) ->
  exists t,
    extract_text_from_pdf w p = (t, Ok (join newline (map page_text texts))).
Proof.
  intros O. unfold extract_text_from_pdf, call, bind. rewrite O.
  pose proof (extract_pages_ok texts []) as P.
  destruct (extract_pages (map Ok texts) []) as [tr r]. simpl in P. subst r.
  eexists. reflexivity.
Qed.

Lemma join_blank (chunks : list str) :
  Forall (fun s => s = []) chunks ->
  Forall (fun c => isspace c = true) (join newline chunks).
Proof.
  induction 1 as [|c rest -> _ IH]; [constructor|].
  destruct rest as [|c' rest]; [constructor|].
  change (join newline ([] :: c' :: rest))
    with (10%N :: join newline (c' :: rest)).
  constructor; [reflexivity | exact IH].
Qed.

(** X7: a PDF that opens but has no text on any page (a scan without text
    layer, or no page at all) is answered with the too-sparse message,
    however many pages it has, and the service is not called. *)
Theorem pdf_without_text_is_sparse
  (w : World) (msg : Message) (fid filename : str) (texts : list (option str)) :
  snd (select_file msg) = Ok (fid, filename) ->
  classify filename = pdf ->
  bot_download w fid (mkPath (tmpdir_name w) filename) = Ok tt ->
  pdfplumber_open w (mkPath (tmpdir_name w) filename) = Ok (map Ok texts) ->
  Forall (fun t => page_text t = []) texts ->
  replies (fst (handle_document w msg)) = [reply_received; reply_too_sparse] /\
  chat_calls (fst (handle_document w msg)) = [].
Proof.
  intros S K D O E.
  destruct (extract_text_from_pdf_ok w _ texts O) as [t X].
  apply (sparse_run w msg (join newline (map page_text texts))).
  - rewrite extracted_text_shape, S. cbv zeta. rewrite D, K. simpl.
    rewrite X. reflexivity.
  - rewrite strip_blank; [reflexivity|].
    apply join_blank. apply Forall_map. exact E.
Qed.

Lemma pdf_without_text_is_sparse_witness :
  replies (fst (handle_document
                  (world_online (map Ok (repeat None 300)) text_250 text_250
                     Raise)
                  (document_message (Some (u "scan.pdf"))))) =
    [reply_received; reply_too_sparse] /\
  chat_calls (fst (handle_document
                     (world_online (map Ok (repeat None 300)) text_250 text_250
                        Raise)
                     (document_message (Some (u "scan.pdf"))))) = [].
Proof.
  apply (pdf_without_text_is_sparse _ _ (u "BQACAgIAAxkBAAIBc2") (u "scan.pdf")
           (repeat None 300)); try reflexivity.
  apply Forall_forall. intros t I. apply repeat_spec in I. subst t.
  reflexivity.
Defined.

(** X8: when the extraction function of a supported kind raises, the handler
    logs the exception, answers with the extraction-failed message as its only
    reply after the acknowledgment and returns; the service is not called. *)
Theorem extraction_failure_reported
  (w : World) (msg : Message) (fid filename : str) (ex : M str) :
  snd (select_file msg) = Ok (fid, filename) ->
  bot_download w fid (mkPath (tmpdir_name w) filename) = Ok tt ->
  strategy w (classify filename) (mkPath (tmpdir_name w) filename) = Some ex ->
  snd ex = Raise ->
  replies (fst (handle_document w msg)) =
    [reply_received; reply_extract_failed] /\
  chat_calls (fst (handle_document w msg)) = [] /\
  In (ELogException (u "Extract error: %s")) (fst (handle_document w msg)) /\
  snd (handle_document w msg) = Ok tt.
Proof.
  intros S D ST R. pose proof (strategy_events _ _ _ _ ST) as F.
  rewrite handle_document_shape, S. cbv zeta. rewrite D, ST.
  destruct ex as [t r]. simpl in R, F. subst r.
  destruct (extraction_only t F) as (A & B & _).
  unfold replies, chat_calls in *. simpl.
  rewrite !flat_map_app, A, B. repeat split.
  do 3 right. apply in_or_app. right. left. reflexivity.
Qed.

Lemma extraction_failure_reported_witness :
  replies (fst (handle_document
                  (sample_world (Ok tt) (Ok [Ok (Some text_250); Raise])
                     Raise Raise Raise)
                  (document_message (Some (u "lease.pdf"))))) =
    [reply_received; reply_extract_failed] /\
  chat_calls (fst (handle_document
                     (sample_world (Ok tt) (Ok [Ok (Some text_250); Raise])
                        Raise Raise Raise)
                     (document_message (Some (u "lease.pdf"))))) = [].
Proof.
  destruct (extraction_failure_reported
              (sample_world (Ok tt) (Ok [Ok (Some text_250); Raise])
                 Raise Raise Raise)
              (document_message (Some (u "lease.pdf")))
              (u "BQACAgIAAxkBAAIBc2") (u "lease.pdf")
              (extract_text_from_pdf
                 (sample_world (Ok tt) (Ok [Ok (Some text_250); Raise])
                    Raise Raise Raise)
                 (mkPath (u "/tmp/tmpk3v9x1") (u "lease.pdf"))))
    as (A & B & _); try reflexivity.
  split; assumption.
Defined.

(** ** Resources and calls *)

(** X9: on every path, also when the handler raises, the temporary directory
    is created once, right after the acknowledgment, and removed once, as the
    last thing the handler does. *)
Theorem temporary_directory_released (w : World) (msg : Message) :
  tmpdir_events (fst (handle_document w msg)) =
    [EMkdtemp (tmpdir_name w); ECleanup (tmpdir_name w)] /\
  exists mid,
    fst (handle_document w msg) =
    EReply reply_received false :: EMkdtemp (tmpdir_name w)
      :: mid ++ [ECleanup (tmpdir_name w)].
Proof.
  rewrite handle_document_shape. cbv zeta.
  destruct (snd (select_file msg)) as [[fid filename]|];
    [|split; [reflexivity | exists []; reflexivity]].
  destruct (bot_download w fid (mkPath (tmpdir_name w) filename));
    [|split; [reflexivity | eexists [_]; reflexivity]].
  destruct (strategy w (classify filename) (mkPath (tmpdir_name w) filename))
    as [[t r]|] eqn:ST;
    [|split; [reflexivity | eexists [_; _]; reflexivity]].
  destruct (extraction_only t (strategy_events _ _ _ _ ST))
    as (_ & _ & _ & T & _).
  destruct r as [text|]; unfold tmpdir_events in *; simpl.
  - split.
    + rewrite !filter_app, T. rewrite analyze_and_send_run.
      destruct (len (strip text) <? 200); [reflexivity|].
      destruct (snd (analyze_document_text w text)); reflexivity.
    + exists (EDownload fid (mkPath (tmpdir_name w) filename)
                :: t ++ fst (analyze_and_send w text)).
      simpl. rewrite <- app_assoc. reflexivity.
  - split.
    + rewrite !filter_app, T. reflexivity.
    + exists (EDownload fid (mkPath (tmpdir_name w) filename)
                :: t ++ on_extract_error).
      simpl. rewrite <- app_assoc. reflexivity.
Qed.

Lemma chat_calls_analyze_and_send (w : World) (text : str) :
  chat_calls (fst (analyze_and_send w text)) =
  if len (strip text) <? 200 then [] else [chat_request text].
Proof.
  rewrite analyze_and_send_run.
  destruct (len (strip text) <? 200); [reflexivity|].
  destruct (snd (analyze_document_text w text)); reflexivity.
Qed.

Lemma chat_calls_run (w : World) (msg : Message) :
  chat_calls (fst (handle_document w msg)) =
  match extracted_text w msg with
  | Some text => if len (strip text) <? 200 then [] else [chat_request text]
  | None => []
  end.
Proof.
  rewrite extracted_text_shape, handle_document_shape. cbv zeta.
  destruct (snd (select_file msg)) as [[fid filename]|]; [|reflexivity].
  destruct (bot_download w fid (mkPath (tmpdir_name w) filename));
    [|reflexivity].
  destruct (strategy w (classify filename) (mkPath (tmpdir_name w) filename))
    as [[t r]|] eqn:ST; [|reflexivity].
  destruct (extraction_only t (strategy_events _ _ _ _ ST)) as (_ & B & _).
  destruct r as [text|]; unfold chat_calls in *; simpl;
    rewrite !flat_map_app, B; simpl.
  - rewrite app_nil_r. apply chat_calls_analyze_and_send.
  - reflexivity.
Qed.

(** X10: a run calls [chat.completions.create] at most once, and only with
    a text that was extracted and has at least 200 characters after
    stripping.  With the client's default of two retries the service
    receives no request when there is no such call, and between one and
    three requests when there is one. *)
Theorem at_most_one_create_call (w : World) (service : Service) (msg : Message) :
  (chat_calls (fst (handle_document (with_service w service) msg)) = [] /\
   requests_sent service
     (fst (handle_document (with_service w service) msg)) = 0%nat) \/
  exists text,
    extracted_text (with_service w service) msg = Some text /\
    200 <= len (strip text) /\
    chat_calls (fst (handle_document (with_service w service) msg)) =
      [chat_request text] /\
    (1 <= requests_sent service
            (fst (handle_document (with_service w service) msg)) <= 3)%nat.
Proof.
  unfold requests_sent. rewrite chat_calls_run.
  destruct (extracted_text (with_service w service) msg) as [text|];
    [|left; split; reflexivity].
  destruct (Z.ltb_spec (len (strip text)) 200) as [L|G];
    [left; split; reflexivity|].
  right. exists text. repeat split; try exact G; simpl; rewrite Nat.add_0_r;
    apply (client_send_bounds service (chat_request text) 0 2).
Qed.

(** X11: every [create] call of a run names the model [gpt-4o-mini], caps
    the answer at 1200 tokens, sets the temperature to 0.3, and passes two
    messages: a system message with the fixed instruction, in which no blank
    separates the fourth item from the closing sentence, and then a user
    message of at most 60,000 characters. *)
Theorem requests_well_formed (w : World) (msg : Message) :
  Forall
    (fun req =>
       model req = u "gpt-4o-mini" /\
       max_tokens req = 1200 /\
       temperature req = 3 # 10 /\
       map role (messages req) = [u "system"; u "user"] /\
       system_message req =
         Some (u "Ты — виртуальный юрист‑ассистент. Проанализируй текст договора, найди потенциальные риски и двусмысленные формулировки. Для каждого риска сформируй: (1) короткое название, (2) цитату из договора, (3) почему опасно простыми словами, (4) совет, как исправить.Заверши списком коротких пунктов‑чек‑листа, что проверить перед подписанием.") /\
       exists c, user_message req = Some c /\ len c <= 60000)
    (chat_calls (fst (handle_document w msg))).
Proof.
  rewrite chat_calls_run.
  destruct (extracted_text w msg) as [text|]; [|constructor].
  destruct (len (strip text) <? 200); [constructor|].
  constructor; [|constructor].
  split; [reflexivity|]. split; [reflexivity|]. split; [reflexivity|].
  split; [reflexivity|]. split; [vm_compute; reflexivity|].
  exists (slice_to 60000 text). split; [reflexivity|].
  rewrite slice_to_60000. unfold len. rewrite length_firstn. lia.
Qed.

(** X12: the handler calls [bot.download] once, for the file the event
    names and with the destination [Path(tmpdir) / filename] of the chosen
    file name; when the event names no file it does not call it.  Unless
    that call returns, nothing is extracted and [chat.completions.create] is
    not called. *)
Theorem download_once (w : World) (msg : Message) :
  downloads (fst (handle_document w msg)) =
    match snd (select_file msg) with
    | Ok (fid, filename) => [(fid, mkPath (tmpdir_name w) filename)]
    | Raise => []
    end /\
  (retrieved w msg = false ->
   extractions (fst (handle_document w msg)) = [] /\
   chat_calls (fst (handle_document w msg)) = []).
Proof.
  unfold retrieved. rewrite handle_document_shape. cbv zeta.
  destruct (snd (select_file msg)) as [[fid filename]|];
    [|repeat split].
  destruct (bot_download w fid (mkPath (tmpdir_name w) filename));
    [|repeat split].
  split; [|discriminate].
  destruct (strategy w (classify filename) (mkPath (tmpdir_name w) filename))
    as [[t r]|] eqn:ST; [|reflexivity].
  destruct (extraction_only t (strategy_events _ _ _ _ ST))
    as (_ & _ & C & _).
  destruct r as [text|]; unfold downloads in *; simpl;
    rewrite !flat_map_app, C; simpl; [|reflexivity].
  rewrite analyze_and_send_run.
  destruct (len (strip text) <? 200); [reflexivity|].
  destruct (snd (analyze_document_text w text)); reflexivity.
Qed.

Lemma download_once_witness :
  extractions (fst (handle_document world_offline
                      (document_message (Some (u "lease.pdf"))))) = [] /\
  chat_calls (fst (handle_document world_offline
                     (document_message (Some (u "lease.pdf"))))) = [].
Proof.
  apply (proj2 (download_once world_offline
                  (document_message (Some (u "lease.pdf"))))).
  reflexivity.
Defined.

(** ** Replies and the analysis result *)

Lemma preview_off_in_analyze_and_send (w : World) (text r : str) :
  In (EReply r true) (fst (analyze_and_send w text)) <->
  200 <= len (strip text) /\ snd (analyze_document_text w text) = Ok r.
Proof.
  rewrite analyze_and_send_run.
  destruct (Z.ltb_spec (len (strip text)) 200) as [L|G].
  - split; [intros [H|[]]; discriminate H | lia].
  - destruct (snd (analyze_document_text w text)) as [r'|].
    + split.
      * intros [H|[H|[]]]; [discriminate H|]. injection H as ->.
        split; [exact G | reflexivity].
      * intros [_ H]; injection H as ->. right; left; reflexivity.
    + split; [|intros [_ H]; discriminate H].
      intros [H|[H|[H|[]]]]; discriminate H.
Qed.

(** X13: the only reply sent with link previews disabled is the analysis
    result: such a reply occurs in a run exactly when a text was extracted,
    passed the length check, and [analyze_document_text] returned the text of
    the reply.  The acknowledgment and the failure messages are sent with the
    default setting. *)
Theorem preview_disabled_only_on_result (w : World) (msg : Message) (r : str) :
  In (EReply r true) (fst (handle_document w msg)) <->
  exists text,
    extracted_text w msg = Some text /\ 200 <= len (strip text) /\
    snd (analyze_document_text w text) = Ok r.
Proof.
  rewrite extracted_text_shape, handle_document_shape. cbv zeta.
  destruct (snd (select_file msg)) as [[fid filename]|].
  2:{ split; [|intros (t & H & _); discriminate H].
      intros [H|[H|[H|[]]]]; discriminate H. }
  destruct (bot_download w fid (mkPath (tmpdir_name w) filename)).
  2:{ split; [|intros (t & H & _); discriminate H].
      intros [H|[H|[H|[H|[]]]]]; discriminate H. }
  destruct (strategy w (classify filename) (mkPath (tmpdir_name w) filename))
    as [[t res]|] eqn:ST.
  2:{ split; [|intros (t & H & _); discriminate H].
      intros [H|[H|[H|[H|[H|[]]]]]]; discriminate H. }
  pose proof (strategy_events _ _ _ _ ST) as F. simpl in F.
  assert (NT : ~ In (EReply r true) t).
  { intros I. rewrite Forall_forall in F. specialize (F _ I). discriminate F. }
  destruct res as [text|].
  - split.
    + intros [H|[H|[H|H]]]; try discriminate H.
      apply in_app_or in H. destruct H as [H|H]; [contradiction|].
      apply in_app_or in H. destruct H as [H|[H|[]]]; [|discriminate H].
      exists text. split; [reflexivity|].
      apply preview_off_in_analyze_and_send. exact H.
    + intros (text' & E & G & A). injection E as <-.
      do 3 right. apply in_or_app. right. apply in_or_app. left.
      apply preview_off_in_analyze_and_send. split; assumption.
  - split; [|intros (t' & H & _); discriminate H].
    intros [H|[H|[H|H]]]; try discriminate H.
    apply in_app_or in H. destruct H as [H|H]; [contradiction|].
    destruct H as [H|[H|[H|[]]]]; discriminate H.
Qed.

(** X14: [analyze_document_text] returns a text exactly when its [create]
    call returns a response whose first choice carries a content, the text
    being that content stripped; further choices are ignored, and in every
    other case (the call raises, no choice, a first choice without content)
    it raises. *)
Theorem analyze_document_text_result (w : World) (text r : str) :
  snd (analyze_document_text w text) = Ok r <->
  exists response choice others c,
    chat_completions_create w (chat_request text) = Ok response /\
    choices response = choice :: others /\
    message_content (choice_message choice) = Some c /\
    r = strip c.
Proof.
  rewrite analyze_document_text_run. simpl.
  destruct (chat_completions_create w (chat_request text)) as [resp|].
  - destruct (choices resp) as [|ch rest] eqn:C.
    + split; [discriminate|].
      intros (resp' & ch & rest & c & H & H' & _).
      injection H as <-. congruence.
    + destruct (message_content (choice_message ch)) as [c|] eqn:MC.
      * split.
        -- intros H; injection H as <-. exists resp, ch, rest, c.
           repeat split; assumption.
        -- intros (resp' & ch' & rest' & c' & H & H' & H'' & ->).
           injection H as <-. rewrite C in H'. injection H' as <- <-.
           rewrite MC in H''. injection H'' as <-. reflexivity.
      * split; [discriminate|].
        intros (resp' & ch' & rest' & c' & H & H' & H'' & _).
        injection H as <-. rewrite C in H'. injection H' as <- <-.
        congruence.
  - split; [discriminate|].
    intros (resp' & ch & rest & c & H & _). discriminate H.
Qed.

(** ** Empty file name *)

(** X15: a document event whose file name is the empty string is stored as
    [document], like an event without file name; once its download has
    returned the run ends with the unsupported-format message, with no
    extraction and no call to the service. *)
Theorem empty_file_name (w : World) (msg : Message) (d : Document) :
  content_type msg = DOCUMENT ->
  document msg = Some d ->
  file_name d = Some (u "") ->
  select_file msg = ([], Ok (file_id d, u "document")) /\
  extractions (fst (handle_document w msg)) = [] /\
  chat_calls (fst (handle_document w msg)) = [] /\
  (bot_download w (file_id d) (mkPath (tmpdir_name w) (u "document")) = Ok tt ->
   replies (fst (handle_document w msg)) =
     [reply_received; reply_unsupported] /\
   snd (handle_document w msg) = Ok tt).
Proof.
  intros C D N.
  assert (S : select_file msg = ([], Ok (file_id d, u "document"))).
  { unfold select_file. rewrite C, D. simpl. rewrite N. reflexivity. }
  split; [exact S|].
  apply (unsupported_outcome w msg (file_id d) (u "document"));
    [rewrite S|]; reflexivity.
Qed.

Lemma empty_file_name_witness :
  select_file (document_message (Some (u ""))) =
    ([], Ok (u "BQACAgIAAxkBAAIBc2", u "document")) /\
  replies (fst (handle_document (world_online [] text_250 text_250 Raise)
                  (document_message (Some (u ""))))) =
    [reply_received; reply_unsupported].
Proof.
  destruct (empty_file_name (world_online [] text_250 text_250 Raise)
              (document_message (Some (u "")))
              {| file_id := u "BQACAgIAAxkBAAIBc2"; file_name := Some (u "") |})
    as (A & _ & _ & B); [reflexivity | reflexivity | reflexivity |].
  split; [exact A | apply B; reflexivity].
Defined.

(** ** A photo, end to end *)

(** X16: a photo whose largest size downloads, opens and is read by the OCR
    into a text of at least 200 stripped characters goes through the whole
    pipeline: the OCR is run for Russian and English, its output is sent
    unfiltered (clipped only) to the service, and the stripped content of the
    first choice is the reply. *)
Theorem photo_pipeline
  (w : World) (msg : Message) (front : list PhotoSize) (p : PhotoSize)
  (img : Image) (text : str) (response : Response) (choice : Choice)
  (others : list Choice) (c : str) :
  let name := u "photo_" ++ photo_file_id p ++ u ".jpg" in
  let path := mkPath (tmpdir_name w) name in
  content_type msg = PHOTO ->
  photo msg = front ++ [p] ->
  bot_download w (photo_file_id p) path = Ok tt ->
  Image_open w path = Ok img ->
  image_to_string w img (u "rus+eng") = Ok text ->
  200 <= len (strip text) ->
  chat_completions_create w (chat_request text) = Ok response ->
  choices response = choice :: others ->
  message_content (choice_message choice) = Some c ->
  handle_document w msg =
  ([EReply reply_received false;
    EMkdtemp (tmpdir_name w);
    EDownload (photo_file_id p) path;
    EImageOpen path;
    EImageToString img (u "rus+eng");
    EChatCreate (chat_request text);
    EReply (strip c) true;
    ECleanup (tmpdir_name w)], Ok tt).
Proof.
  intros name path C P D O R V A B MC. subst name path.
  destruct (photo_is_image_aux msg front p C P) as [S K].
  rewrite handle_document_shape, S.
  cbv beta iota zeta delta [snd]. rewrite D, K.
  cbv beta iota delta [strategy extract_text_from_image call bind].
  rewrite O, R. cbv beta iota.
  rewrite analyze_and_send_run, analyze_document_text_run, A, B, MC.
  destruct (Z.ltb_spec (len (strip text)) 200) as [L|_]; [lia|].
  reflexivity.
Qed.

Lemma photo_pipeline_witness :
  handle_document
    (world_online [] text_50 text_250 (Ok (answer (Some text_200))))
    (photo_message [ {| photo_file_id := u "small" |};
                     {| photo_file_id := u "large" |} ]) =
  ([EReply reply_received false;
    EMkdtemp (u "/tmp/tmpk3v9x1");
    EDownload (u "large") (mkPath (u "/tmp/tmpk3v9x1") (u "photo_large.jpg"));
    EImageOpen (mkPath (u "/tmp/tmpk3v9x1") (u "photo_large.jpg"));
    EImageToString 1%N (u "rus+eng");
    EChatCreate (chat_request text_250);
    EReply (strip text_200) true;
    ECleanup (u "/tmp/tmpk3v9x1")], Ok tt).
Proof.
  apply (photo_pipeline
           (world_online [] text_50 text_250 (Ok (answer (Some text_200))))
           (photo_message [ {| photo_file_id := u "small" |};
                            {| photo_file_id := u "large" |} ])
           [ {| photo_file_id := u "small" |} ]
           {| photo_file_id := u "large" |}
           1%N text_250 (answer (Some text_200))
           {| choice_message := {| message_content := Some text_200 |} |}
           [] text_200); try reflexivity.
  vm_compute; discriminate.
Defined.

(** ** Worlds and services *)

(** The outcome of every [create] call is the outcome of the client on some
    service, so the runs on [with_service w service] are all the runs. *)
Lemma every_world_has_a_service (w : World) :
  exists service,
    forall req,
      chat_completions_create w req = snd (client_create service req).
Proof.
  exists (fun req _ =>
            match chat_completions_create w req with
            | Ok response => Success response
            | Raise => OtherError
            end).
  intros req. unfold client_create. simpl.
  destruct (chat_completions_create w req); reflexivity.
Qed.
